(** * Aayaan Hospital API: auth layer, signup/login, dispense and lab upload

    A shallow embedding of [src/main.py] (and the schemas of [src/schemas.py]
    it uses).  Python dictionaries and MongoDB documents are association lists
    of JSON values; the process-wide [db] handle and the ObjectId counter are
    the state of a small state-and-exception monad; a raised exception leaves
    the writes that happened before it in place, as in Python. *)

From Stdlib Require Import String Ascii List ZArith QArith Bool Lia Permutation.
From Stdlib Require Import FunctionalExtensionality.
Import ListNotations.
Open Scope string_scope.
Open Scope Z_scope.
Set Warnings "-register-all".

(** ** Values *)

(** A BSON ObjectId, kept as its 24-character lower-case hex rendering
    ([str(oid)]). *)
Record ObjectId := mk_oid { oid_hex : string }.

(** JSON / BSON values as Python holds them after decoding.  Numbers with a
    fraction are kept as their exact value ([Q]); datetimes as microseconds
    since the epoch. *)
Inductive jval :=
| JNull
| JBool (b : bool)
| JInt (z : Z)
| JFloat (q : Q)
| JStr (s : string)
| JOid (o : ObjectId)
| JDate (t : Z)
| JList (l : list jval)
| JObj (fields : list (string * jval)).

(** A Python [dict] / Mongo document. *)
Definition dict := list (string * jval).

(** [d.get(k)] *)
Fixpoint dget (k : string) (d : dict) : option jval :=
  match d with
  | [] => None
  | (k', v) :: d' => if String.eqb k k' then Some v else dget k d'
  end.

(** [d[k] = v]: an existing key keeps its place, a new key goes last. *)
Fixpoint dset (k : string) (v : jval) (d : dict) : dict :=
  match d with
  | [] => [(k, v)]
  | (k', v') :: d' => if String.eqb k k' then (k', v) :: d' else (k', v') :: dset k v d'
  end.

(** Python exceptions that the handlers raise or catch. *)
Inductive jwt_error :=
| DecodeError
| InvalidAlgorithmError
| InvalidSignatureError
| ExpiredSignatureError
| ImmatureSignatureError
| InvalidIssuedAtError
| InvalidAudienceError
| InvalidSubjectError
| InvalidJTIError.

Inductive exn :=
| HTTPException (status_code : Z) (detail : string)
| PyJWTError (e : jwt_error)
| InvalidId
| TypeError
| ValueError
| KeyError
| WriteError
| OverflowError
| InvalidDocument
| PasswordSizeError
| NullPasswordError.

Inductive result (A : Type) :=
| Ok (a : A)
| Err (e : exn).
Arguments Ok {A} a.
Arguments Err {A} e.

(** A call that returns rather than raises. *)
Definition succeeds {A} (r : result A) : bool :=
  match r with Ok _ => true | Err _ => false end.

(** One check after another, the first exception ending the sequence. *)
Notation "r1 ;;; r2" := (match r1 with Ok _ => r2 | Err e => Err e end)
  (at level 61, right associativity).

(** ** Equality of BSON values, as a query filter compares them *)

Fixpoint jval_eqb (a b : jval) : bool :=
  match a, b with
  | JNull, JNull => true
  | JBool x, JBool y => Bool.eqb x y
  | JInt x, JInt y => Z.eqb x y
  | JFloat x, JFloat y => Qeq_bool x y
  | JInt x, JFloat y => Qeq_bool (inject_Z x) y
  | JFloat x, JInt y => Qeq_bool x (inject_Z y)
  | JStr x, JStr y => String.eqb x y
  | JOid x, JOid y => String.eqb (oid_hex x) (oid_hex y)
  | JDate x, JDate y => Z.eqb x y
  | JList xs, JList ys =>
      (fix go (xs ys : list jval) : bool :=
         match xs, ys with
         | [], [] => true
         | x :: xs', y :: ys' => jval_eqb x y && go xs' ys'
         | _, _ => false
         end) xs ys
  | JObj xs, JObj ys =>
      (fix go (xs ys : list (string * jval)) : bool :=
         match xs, ys with
         | [], [] => true
         | (kx, x) :: xs', (ky, y) :: ys' => String.eqb kx ky && jval_eqb x y && go xs' ys'
         | _, _ => false
         end) xs ys
  | _, _ => false
  end.

(** A filter [{k: v, ...}] matches a document when each field is present and
    equal to [v], or is an array holding [v]. *)
Definition field_matches (v : jval) (fv : jval) : bool :=
  jval_eqb v fv ||
  match fv with
  | JList l => existsb (jval_eqb v) l
  | _ => false
  end.

Definition matches (flt : dict) (doc : dict) : bool :=
  forallb (fun '(k, v) =>
             match dget k doc with
             | Some fv => field_matches v fv
             | None => false
             end) flt.

Fixpoint find_first (flt : dict) (docs : list dict) : option dict :=
  match docs with
  | [] => None
  | d :: ds => if matches flt d then Some d else find_first flt ds
  end.

(** ** Python builtins on JSON values *)

Definition is_space (c : ascii) : bool :=
  match nat_of_ascii c with
  | 32%nat | 9%nat | 10%nat | 11%nat | 12%nat | 13%nat => true
  | _ => false
  end.

Definition digit_val (c : ascii) : option Z :=
  let n := nat_of_ascii c in
  if andb (Nat.leb 48 n) (Nat.leb n 57) then Some (Z.of_nat n - 48) else None.

Fixpoint drop_spaces (cs : list ascii) : list ascii :=
  match cs with
  | c :: cs' => if is_space c then drop_spaces cs' else cs
  | [] => []
  end.

(** Decimal digits, a single [_] allowed between two digits; [acc] is the
    value read so far, [prev_digit] whether the last character was a digit. *)
Fixpoint read_digits (cs : list ascii) (acc : Z) (prev_digit : bool) : option Z :=
  match cs with
  | [] => if prev_digit then Some acc else None
  | c :: cs' =>
      match digit_val c with
      | Some d => read_digits cs' (acc * 10 + d) true
      | None =>
          if andb (Ascii.eqb c "_"%char) prev_digit
          then match cs' with
               | c' :: _ => if digit_val c' then read_digits cs' acc false else None
               | [] => None
               end
          else None
      end
  end.

(** The code points of a string held as its UTF-8 bytes. *)
Fixpoint utf8_decode (cs : list ascii) : list Z :=
  match cs with
  | [] => []
  | c :: cs1 =>
      let b := Z.of_nat (nat_of_ascii c) in
      let cont (c' : ascii) := Z.of_nat (nat_of_ascii c') mod 64 in
      if b <? 192 then b :: utf8_decode cs1
      else if b <? 224 then
        match cs1 with
        | c2 :: cs2 => ((b mod 32) * 64 + cont c2) :: utf8_decode cs2
        | [] => [b]
        end
      else if b <? 240 then
        match cs1 with
        | c2 :: c3 :: cs3 => ((b mod 16) * 4096 + cont c2 * 64 + cont c3) :: utf8_decode cs3
        | _ => [b]
        end
      else
        match cs1 with
        | c2 :: c3 :: c4 :: cs4 =>
            ((b mod 8) * 262144 + cont c2 * 4096 + cont c3 * 64 + cont c4) :: utf8_decode cs4
        | _ => [b]
        end
  end.

(** [Py_UNICODE_ISSPACE] *)
Definition py_isspace (cp : Z) : bool :=
  ((9 <=? cp) && (cp <=? 13)) || ((28 <=? cp) && (cp <=? 32)) ||
  (cp =? 133) || (cp =? 160) || (cp =? 5760) || ((8192 <=? cp) && (cp <=? 8202)) ||
  (cp =? 8232) || (cp =? 8233) || (cp =? 8239) || (cp =? 8287) || (cp =? 12288).

(** The first code points of the runs of ten decimal digits (general
    category Nd) of Unicode 15, the database of Python 3.12 and 3.13. *)
Definition decimal_zeros : list Z :=
  [48; 1632; 1776; 1984; 2406; 2534; 2662; 2790; 2918; 3046; 3174; 3302; 3430; 3558;
   3664; 3792; 3872; 4160; 4240; 6112; 6160; 6470; 6608; 6784; 6800; 6992; 7088; 7232;
   7248; 42528; 43216; 43264; 43472; 43504; 43600; 44016; 65296; 66720; 68912; 69734;
   69872; 69942; 70096; 70384; 70736; 70864; 71248; 71360; 71472; 71904; 72016; 72784;
   73040; 73120; 73552; 92768; 92864; 93008; 120782; 120792; 120802; 120812; 120822;
   123200; 123632; 124144; 125264; 130032].

(** [Py_UNICODE_TODECIMAL] *)
Definition py_decimal (cp : Z) : option Z :=
  match find (fun z => (z <=? cp) && (cp <? z + 10)) decimal_zeros with
  | Some z => Some (cp - z)
  | None => None
  end.

(** [_PyUnicode_TransformDecimalAndSpaceToASCII]: white space becomes a
    space, a decimal digit its ASCII digit, other ASCII stays, anything else
    becomes ['?']. *)
Definition int_char (cp : Z) : ascii :=
  if py_isspace cp then " "%char
  else match py_decimal cp with
       | Some d => ascii_of_nat (48 + Z.to_nat d)
       | None => if cp <? 128 then ascii_of_nat (Z.to_nat cp) else "?"%char
       end.

(** [int(s)] for a string: the string mapped by [int_char], then
    surrounding white space, an optional sign and base-10 digits. *)
Definition py_int_of_string (s : string) : option Z :=
  let cs0 := map int_char (utf8_decode (list_ascii_of_string s)) in
  let cs := rev (drop_spaces (rev (drop_spaces cs0))) in
  match cs with
  | c :: cs' =>
      if Ascii.eqb c "-"%char then option_map Z.opp (read_digits cs' 0 false)
      else if Ascii.eqb c "+"%char then read_digits cs' 0 false
      else read_digits cs 0 false
  | [] => None
  end.

(** [int(x)] *)
Definition py_int (x : jval) : result Z :=
  match x with
  | JInt z => Ok z
  | JBool b => Ok (if b then 1 else 0)
  | JFloat q => Ok (Z.quot (Qnum q) (Zpos (Qden q)))
  | JStr s => match py_int_of_string s with Some z => Ok z | None => Err ValueError end
  | _ => Err TypeError
  end.

(** [d.get(k)]: a missing key reads as [None]. *)
Definition dget_none (k : string) (d : dict) : jval :=
  match dget k d with Some v => v | None => JNull end.

(** [str(x)] for the values whose rendering the handlers use. *)
Definition py_str (x : jval) : string :=
  match x with
  | JOid o => oid_hex o
  | JStr s => s
  | JNull => "None"
  | JBool true => "True"
  | JBool false => "False"
  | _ => "<object>"
  end.

(** ** ObjectIds *)

Definition hex_char (n : N) : ascii :=
  ascii_of_N (if N.ltb n 10 then 48 + n else 87 + n)%N.

Fixpoint hex_digits (width : nat) (n : N) : list ascii :=
  match width with
  | O => []
  | S w => hex_digits w (N.div n 16) ++ [hex_char (N.modulo n 16)]
  end.

(** The id the driver draws from the process-wide counter: every generated
    ObjectId is fresh.  (A real ObjectId packs a timestamp, a random value and
    this counter; only its freshness is used here.) *)
Definition oid_of_counter (n : N) : ObjectId :=
  mk_oid (string_of_list_ascii (hex_digits 24 n)).

Definition is_hex (c : ascii) : bool :=
  let n := nat_of_ascii c in
  (Nat.leb 48 n && Nat.leb n 57) || (Nat.leb 97 n && Nat.leb n 102) ||
  (Nat.leb 65 n && Nat.leb n 70).

Definition lower (c : ascii) : ascii :=
  let n := nat_of_ascii c in
  if Nat.leb 65 n && Nat.leb n 90 then ascii_of_nat (n + 32) else c.

(** A string of 24 hex digits, and the id it names (rendered lower case). *)
Definition oid_of_string (s : string) : option ObjectId :=
  let cs := list_ascii_of_string s in
  if Nat.eqb (length cs) 24 && forallb is_hex cs
  then Some (mk_oid (string_of_list_ascii (map lower cs)))
  else None.

(** [bytes.fromhex(s)], as the lower-case hex of the bytes read: pairs of hex
    digits, ASCII white space skipped before each pair. *)
Fixpoint fromhex (cs : list ascii) : option (list ascii) :=
  match cs with
  | [] => Some []
  | c :: cs1 =>
      if is_space c then fromhex cs1
      else match cs1 with
           | c2 :: cs2 =>
               if is_hex c && is_hex c2
               then option_map (fun r => lower c :: lower c2 :: r) (fromhex cs2)
               else None
           | [] => None
           end
  end.

(** [bson.ObjectId(s)] for a string [s] with [len(s) == 24] checks no more
    than that [bytes.fromhex(s)] succeeds: a string of 24 characters that
    holds white space between its digit pairs is accepted, with fewer than
    12 bytes.  The hex of those bytes, for such a string. *)
Definition oid_short (s : string) : option string :=
  let cs := list_ascii_of_string s in
  if Nat.eqb (length cs) 24
  then match fromhex cs with
       | Some hx => if Nat.ltb (length hx) 24 then Some (string_of_list_ascii hx) else None
       | None => None
       end
  else None.

(** ** BSON encoding *)

Definition fits_int32 (z : Z) : bool := (- 2147483648 <=? z) && (z <=? 2147483647).
Definition fits_int64 (z : Z) : bool :=
  (- 9223372036854775808 <=? z) && (z <=? 9223372036854775807).

Definition has_nul (k : string) : bool :=
  existsb (fun c => Ascii.eqb c zero) (list_ascii_of_string k).

(** What [bson.encode] raises on a value, the first offence in document
    order: an [int] outside 64 bits ([OverflowError: MongoDB can only handle
    up to 8-byte ints]), a key holding a NUL byte ([InvalidDocument]). *)
Fixpoint bson_check (v : jval) : result unit :=
  match v with
  | JInt z => if fits_int64 z then Ok tt else Err OverflowError
  | JList l =>
      (fix go (l : list jval) : result unit :=
         match l with
         | [] => Ok tt
         | x :: xs => match bson_check x with Ok _ => go xs | Err e => Err e end
         end) l
  | JObj fs =>
      (fix go (fs : list (string * jval)) : result unit :=
         match fs with
         | [] => Ok tt
         | (k, x) :: xs =>
             if has_nul k then Err InvalidDocument
             else match bson_check x with Ok _ => go xs | Err e => Err e end
         end) fs
  | _ => Ok tt
  end.

Definition bson_check_doc (d : dict) : result unit := bson_check (JObj d).

(** Decimal length of a list index, the key of an array element. *)
Definition index_len (i : nat) : Z := Z.of_nat (Decimal.nb_digits (Nat.to_uint i)).

Definition str_len (s : string) : Z := Z.of_nat (String.length s).

(** The size of a value's BSON encoding.  A Python [int] is written as an
    int32 when it fits, else as an int64. *)
Fixpoint bson_size (v : jval) : Z :=
  match v with
  | JNull => 0
  | JBool _ => 1
  | JInt z => if fits_int32 z then 4 else 8
  | JFloat _ => 8
  | JStr s => 4 + str_len s + 1
  | JOid _ => 12
  | JDate _ => 8
  | JList l =>
      4 + (fix go (i : nat) (l : list jval) : Z :=
             match l with
             | [] => 0
             | x :: xs => 1 + index_len i + 1 + bson_size x + go (S i) xs
             end) 0%nat l + 1
  | JObj fs =>
      4 + (fix go (fs : list (string * jval)) : Z :=
             match fs with
             | [] => 0
             | (k, x) :: xs => 1 + str_len k + 1 + bson_size x + go xs
             end) fs + 1
  end.

(** The server refuses to store a document over 16 MiB. *)
Definition MAX_BSON_SIZE := 16777216.

Definition too_large (d : dict) : bool := MAX_BSON_SIZE <? bson_size (JObj d).

(** The server keeps datetimes to the millisecond: the encoder writes
    [floor(t / 1 ms)]. *)
Fixpoint bson_stored (v : jval) : jval :=
  match v with
  | JDate t => JDate (t / 1000 * 1000)
  | JList l => JList (map bson_stored l)
  | JObj fs => JObj (map (fun '(k, x) => (k, bson_stored x)) fs)
  | _ => v
  end.

Definition stored_doc (d : dict) : dict := map (fun '(k, x) => (k, bson_stored x)) d.

(** ** The document store and the exception monad *)

(** A MongoDB database: each collection name to its documents, in insertion
    order. *)
Record Store := mk_store { colls : string -> list dict }.

Definition set_coll (st : Store) (c : string) (docs : list dict) : Store :=
  mk_store (fun c' => if String.eqb c' c then docs else colls st c').

(** The module-level state of [main.py]: the [db] handle ([None] when the
    database is not configured) and the ObjectId counter of the driver. *)
Record World := mk_world { db : option Store; oid_inc : N }.

Definition M (A : Type) := World -> result A * World.

Definition ret {A} (a : A) : M A := fun w => (Ok a, w).

Definition bind {A B} (m : M A) (k : A -> M B) : M B :=
  fun w => match m w with
           | (Ok a, w') => k a w'
           | (Err e, w') => (Err e, w')
           end.

Definition raise {A} (e : exn) : M A := fun w => (Err e, w).

(** [try: m except: h(e)] *)
Definition try_except {A} (m : M A) (h : exn -> M A) : M A :=
  fun w => match m w with
           | (Err e, w') => h e w'
           | r => r
           end.

Definition lift {A} (r : result A) : M A := fun w => (r, w).

Notation "x <- c1 ;; c2" := (bind c1 (fun x => c2))
  (at level 61, c1 at next level, right associativity).
Notation "c1 ;; c2" := (bind c1 (fun _ : unit => c2))
  (at level 61, right associativity).

(** [if db is None: raise HTTPException(500, ...)] *)
Definition check_db : M unit :=
  fun w => match db w with
           | None => (Err (HTTPException 500 "Database not configured"), w)
           | Some _ => (Ok tt, w)
           end.

(** [ObjectId()]: a fresh id from the counter. *)
Definition new_oid : M ObjectId :=
  fun w => (Ok (oid_of_counter (oid_inc w)), mk_world (db w) (N.succ (oid_inc w))).

Section Driver.

(** What the driver makes of an id [ObjectId(s)] accepted with fewer than 12
    bytes (hex [hx], see [oid_short]) when it is sent in a query: the C
    encoder copies 12 bytes from where the bytes begin, past their end, and
    the pure-Python one writes a field the server refuses.  Either the id
    the server receives, or the exception the operation raises. *)
Variable short_oid : string -> result ObjectId.

(** [ObjectId(s)] for a string, as the query it goes into receives it. *)
Definition str_oid (s : string) : result ObjectId :=
  match oid_of_string s with
  | Some o => Ok o
  | None =>
      match oid_short s with
      | Some hx => short_oid hx
      | None => Err InvalidId
      end
  end.

(** [ObjectId(x)] *)
Definition py_ObjectId (x : jval) : M ObjectId :=
  match x with
  | JNull => new_oid
  | JOid o => ret o
  | JStr s => lift (str_oid s)
  | _ => raise TypeError
  end.

(** [db[c].find_one(flt)]; subscripting [db = None] raises. *)
Definition find_one (c : string) (flt : dict) : M (option dict) :=
  fun w => match db w with
           | None => (Err TypeError, w)
           | Some st => (Ok (find_first flt (colls st c)), w)
           end.

(** [db[c].insert_one(doc)]: the driver draws a fresh [_id] and encodes the
    document with it first; an encoding error raises, and a document over
    16 MiB is refused ([WriteError] from the server, or [DocumentTooLarge]
    from the driver when the command exceeds 16 MiB + 16 KiB; both are
    uncaught alike).  Otherwise the document, its datetimes to the
    millisecond, goes last in the collection and [inserted_id] is returned. *)
Definition insert_one (c : string) (doc : dict) : M ObjectId :=
  fun w => match db w with
           | None => (Err TypeError, w)
           | Some st =>
               let o := oid_of_counter (oid_inc w) in
               let full := ("_id", JOid o) :: doc in
               let w1 := mk_world (Some st) (N.succ (oid_inc w)) in
               match bson_check_doc full with
               | Err e => (Err e, w1)
               | Ok _ =>
                   if too_large full then (Err WriteError, w1)
                   else (Ok o, mk_world (Some (set_coll st c (colls st c ++ [stored_doc full])))
                                        (N.succ (oid_inc w)))
               end
           end.

(** Update operators used by [main.py]. *)
Inductive update_doc :=
| USet (fields : dict)   (* {"$set": fields} *)
| UInc (fields : dict).  (* {"$inc": fields} *)

(** [$inc] on the server: a sum of integers outside 64 bits fails. *)
Definition inc_value (cur : option jval) (by_ : jval) : result jval :=
  match cur, by_ with
  | None, _ => Ok by_
  | Some (JInt m), JInt n => if fits_int64 (m + n) then Ok (JInt (m + n)) else Err WriteError
  | Some (JFloat q), JInt n => Ok (JFloat (q + inject_Z n))
  | Some (JInt m), JFloat q => Ok (JFloat (inject_Z m + q))
  | Some (JFloat p), JFloat q => Ok (JFloat (p + q))
  | _, _ => Err WriteError
  end.

Fixpoint apply_inc (fields : dict) (d : dict) : result dict :=
  match fields with
  | [] => Ok d
  | (k, v) :: fs =>
      match inc_value (dget k d) v with
      | Ok v' => apply_inc fs (dset k v' d)
      | Err e => Err e
      end
  end.

Definition apply_update (u : update_doc) (d : dict) : result dict :=
  match u with
  | USet fields => Ok (fold_left (fun d' '(k, v) => dset k (bson_stored v) d') fields d)
  | UInc fields => apply_inc fields d
  end.

(** The first matching document is rewritten in place; the count of matched
    documents (0 or 1) is returned with the new list.  An update that fails,
    or whose result exceeds 16 MiB, is a write error and changes nothing. *)
Fixpoint update_first (flt : dict) (u : update_doc) (docs : list dict)
  : result (list dict * nat) :=
  match docs with
  | [] => Ok ([], 0%nat)
  | d :: ds =>
      if matches flt d
      then match apply_update u d with
           | Ok d' => if too_large d' then Err WriteError else Ok (d' :: ds, 1%nat)
           | Err e => Err e
           end
      else match update_first flt u ds with
           | Ok (ds', n) => Ok (d :: ds', n)
           | Err e => Err e
           end
  end.

(** The update document as the driver encodes it. *)
Definition update_fields (u : update_doc) : dict :=
  match u with
  | USet fields => [("$set", JObj fields)]
  | UInc fields => [("$inc", JObj fields)]
  end.

(** The driver encodes the filter and the update, then the server rewrites
    the first match. *)
Definition update_docs (flt : dict) (u : update_doc) (docs : list dict)
  : result (list dict * nat) :=
  bson_check_doc flt ;;; bson_check_doc (update_fields u) ;;; update_first flt u docs.

(** [db[c].update_one(flt, u)], returning [matched_count]. *)
Definition update_one (c : string) (flt : dict) (u : update_doc) : M nat :=
  fun w => match db w with
           | None => (Err TypeError, w)
           | Some st =>
               match update_docs flt u (colls st c) with
               | Ok (docs, n) => (Ok n, mk_world (Some (set_coll st c docs)) (oid_inc w))
               | Err e => (Err e, w)
               end
           end.

(** ** Tokens (PyJWT, HS256) *)

(** A bearer token as [jwt.decode] reads it: a compact JWS whose header names
    [alg] and whose payload is a JSON object, with its signature; any string
    that does not split and decode that way is [Malformed]. *)
Inductive token :=
| Compact (alg : string) (payload : dict) (signature : string)
| Malformed (raw : string).

Definition ALGORITHM := "HS256".
Definition ACCESS_TOKEN_EXPIRE_MINUTES := 60 * 8.

(** [timedelta(minutes=m)] in microseconds. *)
Definition minutes (m : Z) : Z := m * 60 * 1000000.

(** [jwt.encode] turns a datetime in [exp], [iat] or [nbf] into whole seconds
    ([timegm(dt.utctimetuple())], microseconds dropped). *)
Definition numeric_date (k : string) (d : dict) : dict :=
  match dget k d with
  | Some (JDate t) => dset k (JInt (t / 1000000)) d
  | _ => d
  end.

(** [json.dumps] of a value: an [ObjectId] or a [datetime] anywhere in it is
    a [TypeError]. *)
Fixpoint json_ok (v : jval) : bool :=
  match v with
  | JOid _ | JDate _ => false
  | JList l =>
      (fix go (l : list jval) : bool :=
         match l with [] => true | x :: xs => json_ok x && go xs end) l
  | JObj fs =>
      (fix go (fs : list (string * jval)) : bool :=
         match fs with [] => true | (_, x) :: xs => json_ok x && go xs end) fs
  | _ => true
  end.

(** Python truthiness of a JSON value. *)
Definition py_truthy (v : jval) : bool :=
  match v with
  | JNull => false
  | JBool b => b
  | JInt z => negb (z =? 0)
  | JFloat q => negb (Qeq_bool q 0)
  | JStr s => negb (String.eqb s "")
  | JList [] | JObj [] => false
  | _ => true
  end.

(** [int(payload[k])] for a registered time claim, at time [now]
    (microseconds): [ValueError] becomes the PyJWT error [e], any other
    exception escapes; [bad t] says whether the time [t] (in microseconds)
    fails the claim, with the PyJWT error [e']. *)
Definition check_time_claim (payload : dict) (k : string) (e : jwt_error)
    (bad : Z -> bool) (e' : jwt_error) : result unit :=
  match dget k payload with
  | None => Ok tt
  | Some v =>
      match py_int v with
      | Err ValueError => Err (PyJWTError e)
      | Err x => Err x
      | Ok n => if bad (n * 1000000) then Err (PyJWTError e') else Ok tt
      end
  end.

(** PyJWT's (2.10) [_validate_claims] with no [audience], [issuer], [subject]
    or [leeway] given, at time [now]: [iat] in the future, then [nbf] in the
    future, then [exp] reached, then any truthy [aud] claim, then a [sub] or
    a [jti] that is not a string. *)
Definition validate_claims (payload : dict) (now : Z) : result unit :=
  let is_str (v : jval) := match v with JStr _ => true | _ => false end in
  check_time_claim payload "iat" InvalidIssuedAtError (fun t => now <? t)
    ImmatureSignatureError ;;;
  check_time_claim payload "nbf" DecodeError (fun t => now <? t) ImmatureSignatureError ;;;
  check_time_claim payload "exp" DecodeError (fun t => t <=? now) ExpiredSignatureError ;;;
  match dget "aud" payload with
  | Some a => if py_truthy a then Err (PyJWTError InvalidAudienceError) else Ok tt
  | None => Ok tt
  end ;;;
  match dget "sub" payload with
  | Some v => if is_str v then Ok tt else Err (PyJWTError InvalidSubjectError)
  | None => Ok tt
  end ;;;
  match dget "jti" payload with
  | Some v => if is_str v then Ok tt else Err (PyJWTError InvalidJTIError)
  | None => Ok tt
  end.

(** The checks [passlib] makes before handing a password to the bcrypt
    backend: at most 4096 characters ([PasswordSizeError]), then no NUL byte
    ([NullPasswordError]).  A character is a UTF-8 byte that does not
    continue a sequence. *)
Definition py_len (s : string) : Z :=
  Z.of_nat (length (filter (fun c => negb ((128 <=? Z.of_nat (nat_of_ascii c)) &&
                                          (Z.of_nat (nat_of_ascii c) <? 192)))
                           (list_ascii_of_string s))).

Section Service.

(** [SECRET_KEY = os.getenv("SECRET_KEY", "change_this_secret")] *)
Variable SECRET_KEY : string.
(** HMAC-SHA256 of the signing input (header naming [alg], payload) under a key. *)
Variable hmac_sha256 : string -> string -> dict -> string.
(** The bcrypt backend's hash, once passlib's checks have passed (it may
    raise, e.g. on passwords its version refuses), and [pwd_context.verify];
    [verify] may raise (malformed or foreign hash, wrong argument type). *)
Variable ctx_hash : string -> result string.
Variable ctx_verify : string -> jval -> result bool.

(** [jwt.encode(payload, key, algorithm=alg)]: the datetimes of [exp], [iat]
    and [nbf] become seconds, then the payload is serialised by [json.dumps]. *)
Definition jwt_encode (payload : dict) (key alg : string) : result token :=
  let p := numeric_date "nbf" (numeric_date "iat" (numeric_date "exp" payload)) in
  if json_ok (JObj p) then Ok (Compact alg p (hmac_sha256 key alg p)) else Err TypeError.

(** [jwt.decode(token, key, algorithms=algs)] at time [now] (microseconds):
    header, then signature, then [validate_claims]. *)
Definition jwt_decode (t : token) (key : string) (algs : list string) (now : Z)
  : result dict :=
  match t with
  | Malformed _ => Err (PyJWTError DecodeError)
  | Compact alg payload sig =>
      if negb (existsb (String.eqb alg) algs) then Err (PyJWTError InvalidAlgorithmError)
      else if negb (String.eqb sig (hmac_sha256 key alg payload))
      then Err (PyJWTError InvalidSignatureError)
      else match validate_claims payload now with
           | Ok _ => Ok payload
           | Err e => Err e
           end
  end.

(** [verify_password] *)
Definition verify_password (plain_password : string) (hashed_password : jval) : bool :=
  match ctx_verify plain_password hashed_password with
  | Ok b => b
  | Err _ => false
  end.

(** [get_password_hash]: [pwd_context.hash(password)] *)
Definition get_password_hash (password : string) : result string :=
  if 4096 <? py_len password then Err PasswordSizeError
  else if has_nul password then Err NullPasswordError
  else ctx_hash password.

(** [create_access_token(data, expires_delta)] at time [now]; a zero
    [timedelta] is falsy, so [expires_delta or default] falls back to it. *)
Definition create_access_token (now : Z) (data : dict) (expires_delta : option Z)
  : result token :=
  let delta := match expires_delta with
               | Some d => if d =? 0 then minutes ACCESS_TOKEN_EXPIRE_MINUTES else d
               | None => minutes ACCESS_TOKEN_EXPIRE_MINUTES
               end in
  let expire := now + delta in
  let to_encode := dset "exp" (JDate expire) data in
  jwt_encode to_encode SECRET_KEY ALGORITHM.

Definition credentials_exception := HTTPException 401 "Could not validate credentials".

(** [OAuth2PasswordBearer]: no [Authorization: Bearer ...] header is a 401. *)
Definition oauth2_scheme (auth : option token) : M token :=
  match auth with
  | None => raise (HTTPException 401 "Not authenticated")
  | Some t => ret t
  end.

(** [get_current_user] *)
Definition get_current_user (now : Z) (auth : option token) : M dict :=
  token <- oauth2_scheme auth ;;
  user_id <- try_except
               (payload <- lift (jwt_decode token SECRET_KEY [ALGORITHM] now) ;;
                let user_id := dget_none "sub" payload in
                match user_id with
                | JNull => raise credentials_exception
                | _ => ret user_id
                end)
               (fun e => match e with
                         | PyJWTError _ => raise credentials_exception
                         | _ => raise e
                         end) ;;
  check_db ;;
  user <- try_except (o <- py_ObjectId user_id ;; find_one "user" [("_id", JOid o)])
                     (fun _ => ret None) ;;
  match user with
  | None | Some [] => raise credentials_exception
  | Some u =>
      match dget "_id" u with
      | None => raise KeyError
      | Some i => ret (dset "_id" (JStr (py_str i)) u)
      end
  end.

(** A route declared with [current=Depends(get_current_user)]: the
    dependency runs first and its exception ends the request. *)
Definition protected {A} (now : Z) (auth : option token) (handler : dict -> M A) : M A :=
  current <- get_current_user now auth ;; handler current.

(** ** Auth routes *)

(** [SignupRequest] (after pydantic: [email] is the validated [EmailStr]). *)
Record SignupRequest := mk_signup {
  role : string;
  full_name : string;
  email : string;
  password : string }.

(** Python truthiness of [find_one]'s result. *)
Definition truthy (r : option dict) : bool :=
  match r with
  | Some (_ :: _) => true
  | _ => false
  end.

(** [s.upper()] on the ASCII letters. *)
Definition upper (c : ascii) : ascii :=
  let n := nat_of_ascii c in
  if Nat.leb 97 n && Nat.leb n 122 then ascii_of_nat (n - 32) else c.

Definition py_upper (s : string) : string :=
  string_of_list_ascii (map upper (list_ascii_of_string s)).

(** [s[-6:]] *)
Definition last6 (s : string) : string := substring (String.length s - 6) 6 s.

(** [signup(payload)] at time [now] ([datetime.now(timezone.utc)]). *)
Definition signup (now : Z) (payload : SignupRequest) : M dict :=
  check_db ;;
  existing <- find_one "user" [("email", JStr (email payload))] ;;
  if truthy existing then raise (HTTPException 400 "Email already registered") else
  hashed <- lift (get_password_hash (password payload)) ;;
  let user_doc := [("role", JStr (role payload));
                   ("full_name", JStr (full_name payload));
                   ("email", JStr (email payload));
                   ("password_hash", JStr hashed);
                   ("is_active", JBool true);
                   ("created_at", JDate now);
                   ("updated_at", JDate now)] in
  res <- insert_one "user" user_doc ;;
  let uid := oid_hex res in
  (if String.eqb (role payload) "patient"
   then _ <- insert_one "patient" [("user_id", JStr uid);
                                   ("medical_record_number",
                                     JStr ("MRN-" ++ py_upper (last6 uid)))] ;; ret tt
   else ret tt) ;;
  (if String.eqb (role payload) "doctor"
   then _ <- insert_one "doctor" [("user_id", JStr uid); ("specialization", JNull)] ;; ret tt
   else ret tt) ;;
  ret [("id", JStr uid); ("message", JStr "Signup successful")].

(** [OAuth2PasswordRequestForm] *)
Record LoginForm := mk_form { username : string; form_password : string }.

(** [login(form_data)] at time [now]; returns [Token.access_token]. *)
Definition login (now : Z) (form_data : LoginForm) : M token :=
  check_db ;;
  user <- find_one "user" [("email", JStr (username form_data))] ;;
  match user with
  | None | Some [] => raise (HTTPException 400 "Incorrect email or password")
  | Some u =>
      let h := match dget "password_hash" u with Some h => h | None => JStr "" end in
      if negb (verify_password (form_password form_data) h)
      then raise (HTTPException 400 "Incorrect email or password")
      else
        match dget "_id" u with
        | None => raise KeyError
        | Some i =>
            let r := match dget "role" u with Some r => r | None => JStr "user" end in
            lift (create_access_token now [("sub", JStr (py_str i)); ("role", r)] None)
        end
  end.

End Service.

(** ** Pharmacy and laboratory routes *)









(** [upload_result(test_id, file)] (body, after [get_current_user]);
    [f"/files/{file.filename}"] renders a missing filename as [None]. *)
Definition upload_result (test_id : string) (filename : option string) : M dict :=
  check_db ;;
  o <- py_ObjectId (JStr test_id) ;;
  let fname := match filename with Some f => f | None => "None" end in
  _ <- update_one "labtest" [("_id", JOid o)]
         (USet [("status", JStr "completed"); ("result_pdf_url", JStr ("/files/" ++ fname))]) ;;
  ret [("message", JStr "Result uploaded")].

(** ** Reading routes, records and the dashboard *)

(** [db[c].count_documents(flt)] *)
Definition count_documents (c : string) (flt : dict) : M Z :=
  fun w => match db w with
           | None => (Err TypeError, w)
           | Some st => (Ok (Z.of_nat (length (filter (matches flt) (colls st c)))), w)
           end.

(** [list(db[c].find(flt))]: the matching documents in natural order. *)
Definition find (c : string) (flt : dict) : M (list dict) :=
  fun w => match db w with
           | None => (Err TypeError, w)
           | Some st => (Ok (filter (matches flt) (colls st c)), w)
           end.

(** [for i in items: i["_id"] = str(i["_id"])]: a document without [_id]
    raises [KeyError]. *)
Fixpoint serialize_ids (items : list dict) : result (list dict) :=
  match items with
  | [] => Ok []
  | i :: rest =>
      match dget "_id" i with
      | None => Err KeyError
      | Some v =>
          match serialize_ids rest with
          | Ok r => Ok (dset "_id" (JStr (py_str v)) i :: r)
          | Err e => Err e
          end
      end
  end.

(** [dashboard(current)] (body), [today = datetime.now().date().isoformat()]. *)
Definition dashboard (today : string) : M dict :=
  check_db ;;
  appts_today <- count_documents "appointment" [("date", JStr today)] ;;
  patients_total <- count_documents "patient" [] ;;
  lab_pending <- count_documents "labtest" [("status", JStr "ordered")] ;;
  ret [("appointments_today", JInt appts_today);
       ("patients_total", JInt patients_total);
       ("lab_pending", JInt lab_pending);
       ("alerts", JList [])].

(** [add_record(patient_id, notes, current)] (body) at time [now]. *)
Definition add_record (now : Z) (patient_id notes : string) : M dict :=
  check_db ;;
  rid <- insert_one "record" [("patient_id", JStr patient_id); ("notes", JStr notes);
                              ("created_at", JDate now)] ;;
  ret [("id", JStr (oid_hex rid))].

(** [list_doctors(current)] (body) *)
Definition list_doctors : M (list dict) :=
  check_db ;;
  items <- find "doctor" [] ;;
  lift (serialize_ids items).

(** [medicines(current)] (body) *)
Definition medicines : M (list dict) :=
  check_db ;;
  items <- find "medicine" [] ;;
  lift (serialize_ids items).

(** [list_admissions(current)] (body) *)
Definition list_admissions : M (list dict) :=
  check_db ;;
  items <- find "admission" [] ;;
  lift (serialize_ids items).

(** [today_appointments(current)] (body) *)
Definition today_appointments (today : string) : M (list dict) :=
  check_db ;;
  items <- find "appointment" [("date", JStr today)] ;;
  lift (serialize_ids items).

Section Sorted.

(** The server's order on BSON values, which [cursor.sort] follows. *)
Variable bson_cmp : jval -> jval -> comparison.

(** [cursor.sort(key, -1)]: descending on [doc.get(key)] (a missing field
    sorts as [null]); the order of ties is the server's, any one is taken. *)
Fixpoint insert_desc (key : string) (d : dict) (l : list dict) : list dict :=
  match l with
  | [] => [d]
  | x :: xs =>
      match bson_cmp (dget_none key d) (dget_none key x) with
      | Lt => x :: insert_desc key d xs
      | _ => d :: x :: xs
      end
  end.

Definition sort_desc (key : string) (docs : list dict) : list dict :=
  fold_right (insert_desc key) [] docs.

(** [get_records(patient_id, current)] (body) *)
Definition get_records (patient_id : string) : M (list dict) :=
  check_db ;;
  items <- find "record" [("patient_id", JStr patient_id)] ;;
  lift (serialize_ids (sort_desc "created_at" items)).

(** [list_prescriptions(patient_id, current)] (body) *)
Definition list_prescriptions (patient_id : string) : M (list dict) :=
  check_db ;;
  items <- find "prescription" [("patient_id", JStr patient_id)] ;;
  lift (serialize_ids (sort_desc "issued_at" items)).

(** [lab_tests(patient_id, current)] (body) *)
Definition lab_tests (patient_id : string) : M (list dict) :=
  check_db ;;
  items <- find "labtest" [("patient_id", JStr patient_id)] ;;
  lift (serialize_ids (sort_desc "_id" items)).

End Sorted.

(** ** Sample data used by the examples *)

Definition empty_store : Store := mk_store (fun _ => []).
Definition w0 : World := mk_world (Some empty_store) 0.

(** Stand-ins for HMAC and bcrypt, to run the model. *)
Definition demo_hmac (key alg : string) (p : dict) : string := key ++ "/" ++ alg.
Definition demo_hash (pw : string) : result string := Ok ("$2b$" ++ pw).
Definition demo_verify (pw : string) (h : jval) : result bool :=
  match h with
  | JStr s => if String.prefix "$2b$" s then Ok (String.eqb s ("$2b$" ++ pw)) else Err ValueError
  | _ => Err TypeError
  end.

Definition demo_key := "change_this_secret".
Definition uid0 := oid_of_counter 0.
Definition demo_user : dict :=
  [("_id", JOid uid0); ("role", JStr "lab"); ("full_name", JStr "Lab Tech");
   ("email", JStr "lab@x.com"); ("password_hash", JStr "$2b$pw"); ("is_active", JBool true)].
Definition demo_lab : dict :=
  [("_id", JOid (oid_of_counter 1)); ("patient_id", JStr "p1"); ("ordered_by", JStr "d1");
   ("test_type", JStr "CBC"); ("status", JStr "ordered"); ("result_summary", JNull);
   ("result_pdf_url", JNull)].
Definition demo_med : dict :=
  [("_id", JOid (oid_of_counter 2)); ("name", JStr "Paracetamol"); ("stock", JInt 10);
   ("price", JFloat 2)].
Definition demo_store : Store :=
  mk_store (fun c => if String.eqb c "user" then [demo_user]
                     else if String.eqb c "labtest" then [demo_lab]
                     else if String.eqb c "medicine" then [demo_med]
                     else []).
Definition alice := mk_signup "patient" "Alice" "alice@x.com" "pw".
Definition mallory := mk_signup "superuser" "Mallory" "mallory@x.com" "pw".
Definition demo_world : World := mk_world (Some demo_store) 3.
(** A token [login] issues for [demo_user] at time 0. *)
Definition demo_token : token :=
  match create_access_token demo_key demo_hmac 0
          [("sub", JStr (oid_hex uid0)); ("role", JStr "lab")] None with
  | Ok t => t
  | Err _ => Malformed ""
  end.
(** The id a query receives for a short [ObjectId] when the bytes past its
    end are zero. *)
Definition demo_short_oid (hx : string) : result ObjectId :=
  Ok (mk_oid (hx ++ string_of_list_ascii (repeat "0"%char (24 - String.length hx)))).
(** BSON order on the values the sorted routes compare (dates here). *)
Definition demo_cmp (a b : jval) : comparison :=
  match a, b with
  | JDate x, JDate y => Z.compare x y
  | _, _ => Eq
  end.
Definition demo_appt : dict :=
  [("_id", JOid (oid_of_counter 4)); ("patient_id", JStr "p1"); ("doctor_id", JStr "d1");
   ("date", JStr "2026-10-16"); ("status", JStr "scheduled")].
Definition demo_rec : dict :=
  [("_id", JOid (oid_of_counter 5)); ("patient_id", JStr "p1"); ("notes", JStr "flu");
   ("created_at", JDate 0)].
(** [demo_store] with one appointment today and one record for [p1]. *)
Definition clinic_store : Store :=
  set_coll (set_coll demo_store "appointment" [demo_appt]) "record" [demo_rec].
Definition clinic_world : World := mk_world (Some clinic_store) 6.
Definition bob := mk_signup "doctor" "Bob" "bob@x.com" "pw".
(** [s] repeated [2^n] times. *)
Fixpoint dbl (n : nat) (s : string) : string :=
  match n with
  | O => s
  | S n' => dbl n' (s ++ s)
  end.
(** A file name of 16 MiB. *)
Definition big_name : string := dbl 24 "a".

(** ** What the dispense loop does to the medicine collection *)






(** ** Outcomes of requests *)



(** The document [ObjectId(sub)] names in the User collection, if [sub] is a
    valid id (JSON never yields an [ObjectId]; [None] is excluded before). *)
Definition sub_oid (v : jval) : option ObjectId :=
  match v with
  | JOid o => Some o
  | JStr s => match str_oid s with Ok o => Some o | Err _ => None end
  | _ => None
  end.


Definition user_lookup (st : Store) (v : jval) : option dict :=
  match sub_oid v with
  | Some o => find_first [("_id", JOid o)] (colls st "user")
  | None => None
  end.

(** The emails registered in a store: a User document matches [{"email": e}]. *)
Definition registered (st : Store) (e : string) : bool :=
  existsb (matches [("email", JStr e)]) (colls st "user").

(** Signups run one after the other. *)
Fixpoint run_signups ctx_hash (now : Z) (ps : list SignupRequest) (w : World)
  : list (result dict) * World :=
  match ps with
  | [] => ([], w)
  | p :: ps' =>
      let '(r, w1) := signup ctx_hash now p w in
      let '(rs, w2) := run_signups ctx_hash now ps' w1 in
      (r :: rs, w2)
  end.

Definition Conflict := HTTPException 400 "Email already registered".

(** The User document [signup] builds (before the driver adds its [_id]). *)
Definition signup_user_doc (hashed : string) (now : Z) (p : SignupRequest) : dict :=
  [("role", JStr (role p)); ("full_name", JStr (full_name p)); ("email", JStr (email p));
   ("password_hash", JStr hashed); ("is_active", JBool true);
   ("created_at", JDate now); ("updated_at", JDate now)].

(** The world after a successful [signup] with password hash [h]: the User
    document (its datetimes to the millisecond), then the Patient or Doctor
    stub the role asks for. *)
Definition signup_world (st : Store) (inc : N) (h : string) (now : Z) (p : SignupRequest)
  : World :=
  let o := oid_of_counter inc in
  let uid := oid_hex o in
  let o' := oid_of_counter (N.succ inc) in
  let st1 := set_coll st "user"
               (colls st "user" ++ [stored_doc (("_id", JOid o) :: signup_user_doc h now p)]) in
  if String.eqb (role p) "patient" then
    mk_world (Some (set_coll st1 "patient"
                      (colls st1 "patient" ++
                       [[("_id", JOid o'); ("user_id", JStr uid);
                         ("medical_record_number", JStr ("MRN-" ++ py_upper (last6 uid)))]])))
             (N.succ (N.succ inc))
  else if String.eqb (role p) "doctor" then
    mk_world (Some (set_coll st1 "doctor"
                      (colls st1 "doctor" ++
                       [[("_id", JOid o'); ("user_id", JStr uid); ("specialization", JNull)]])))
             (N.succ (N.succ inc))
  else mk_world (Some st1) (N.succ inc).

(** The password passes [get_password_hash] and the User document built with
    its hash fits, with its [_id], in the 16 MiB of a stored document. *)
Definition signup_storable ctx_hash (now : Z) (p : SignupRequest) : bool :=
  match get_password_hash ctx_hash (password p) with
  | Ok h => negb (too_large (("_id", JOid (oid_of_counter 0)) :: signup_user_doc h now p))
  | Err _ => false
  end.

(** The emails of the signups of a sequence that succeeded. *)
Fixpoint signed_up (ps : list SignupRequest) (rs : list (result dict)) : list string :=
  match ps, rs with
  | p :: ps', r :: rs' => if succeeds r then email p :: signed_up ps' rs' else signed_up ps' rs'
  | _, _ => []
  end.

(** Every document of collection [c] has an [_id] (as [insert_one] gives it). *)
Definition has_ids (st : Store) (c : string) : Prop :=
  forall d, In d (colls st c) -> dget "_id" d <> None.

(** [i["_id"] = str(i["_id"])] on one document that has an [_id]. *)
Definition serialize_id (d : dict) : dict :=
  match dget "_id" d with
  | Some v => dset "_id" (JStr (py_str v)) d
  | None => d
  end.

(** ** Helper lemmas *)

Lemma string_eqb_refl' (s : string) : String.eqb s s = true.
Proof. apply String.eqb_eq. reflexivity. Qed.

Lemma matches_oid (o : ObjectId) (d : dict) :
  dget "_id" d = Some (JOid o) -> matches [("_id", JOid o)] d = true.
Proof.
  intros H. unfold matches. simpl. rewrite H. unfold field_matches. simpl.
  rewrite string_eqb_refl'. reflexivity.
Qed.

(** A document no filter field matches is left alone by [update_first]. *)
Lemma update_first_app (flt : dict) (u : update_doc) (pre post : list dict) (t t' : dict) :
  forallb (fun d => negb (matches flt d)) pre = true ->
  matches flt t = true ->
  apply_update u t = Ok t' ->
  update_first flt u (pre ++ t :: post)%list
    = if too_large t' then Err WriteError else Ok ((pre ++ t' :: post)%list, 1%nat).
Proof.
  induction pre as [|d pre IH]; simpl; intros Hpre Ht Hu.
  - rewrite Ht, Hu. reflexivity.
  - apply andb_prop in Hpre as [Hd Hpre]. apply negb_true_iff in Hd.
    rewrite Hd, IH; auto. destruct (too_large t'); reflexivity.
Qed.

Lemma str_oid_valid (s : string) (o : ObjectId) :
  oid_of_string s = Some o -> str_oid s = Ok o.
Proof. unfold str_oid. intros ->. reflexivity. Qed.

(** Encoding an [_id] filter never fails. *)
Lemma update_docs_id (o : ObjectId) (u : update_doc) (docs : list dict) :
  update_docs [("_id", JOid o)] u docs
  = (bson_check_doc (update_fields u) ;;; update_first [("_id", JOid o)] u docs).
Proof. reflexivity. Qed.


Lemma set_coll_same (st : Store) (c c' : string) (docs : list dict) :
  colls (set_coll st c docs) c' = if String.eqb c' c then docs else colls st c'.
Proof. reflexivity. Qed.

Lemma dget_dset_eq (k : string) (v : jval) (d : dict) : dget k (dset k v d) = Some v.
Proof.
  induction d as [|[k' v'] d IH]; simpl.
  - rewrite string_eqb_refl'. reflexivity.
  - destruct (String.eqb k k') eqn:E; simpl.
    + apply String.eqb_eq in E. subst. rewrite string_eqb_refl'. reflexivity.
    + rewrite E. exact IH.
Qed.

Lemma dget_dset_neq (k k2 : string) (v : jval) (d : dict) :
  k2 <> k -> dget k2 (dset k v d) = dget k2 d.
Proof.
  intros Hne. induction d as [|[k' v'] d IH]; simpl.
  - destruct (String.eqb k2 k) eqn:E; [apply String.eqb_eq in E; congruence|reflexivity].
  - destruct (String.eqb k k') eqn:E; simpl.
    + apply String.eqb_eq in E. subst.
      destruct (String.eqb k2 k') eqn:E2; [apply String.eqb_eq in E2; congruence|reflexivity].
    + destruct (String.eqb k2 k'); [reflexivity|exact IH].
Qed.

Lemma length_string_of_list_ascii (l : list ascii) :
  String.length (string_of_list_ascii l) = length l.
Proof. induction l as [|c l IH]; simpl; [reflexivity|]. rewrite IH. reflexivity. Qed.

Lemma length_list_ascii_of_string (s : string) :
  length (list_ascii_of_string s) = String.length s.
Proof. induction s as [|c s IH]; simpl; [reflexivity|]. rewrite IH. reflexivity. Qed.

Lemma hex_digits_length (w : nat) (n : N) : length (hex_digits w n) = w.
Proof.
  revert n. induction w as [|w IH]; intros n; simpl; [reflexivity|].
  rewrite length_app, IH. simpl. lia.
Qed.

Lemma oid_counter_length (n : N) : String.length (oid_hex (oid_of_counter n)) = 24%nat.
Proof. unfold oid_of_counter. cbn [oid_hex]. rewrite length_string_of_list_ascii. apply hex_digits_length. Qed.

Lemma substring_length_le (m k : nat) (s : string) : (String.length (substring m k s) <= k)%nat.
Proof.
  revert m k. induction s as [|c s IH]; intros m k; destruct m, k; simpl; try lia;
    try apply IH.
  specialize (IH 0%nat k). lia.
Qed.

Lemma py_upper_length (s : string) : String.length (py_upper s) = String.length s.
Proof.
  unfold py_upper. rewrite length_string_of_list_ascii, length_map.
  apply length_list_ascii_of_string.
Qed.

Lemma string_app_length (s1 s2 : string) :
  String.length (s1 ++ s2) = (String.length s1 + String.length s2)%nat.
Proof. induction s1 as [|c s1 IH]; simpl; [reflexivity|]. rewrite IH. reflexivity. Qed.

(** The size of a document does not depend on the ObjectId in its [_id]. *)
Lemma too_large_id (o o' : ObjectId) (d : dict) :
  too_large (("_id", JOid o) :: d) = too_large (("_id", JOid o') :: d).
Proof. reflexivity. Qed.

(** The Patient and Doctor stubs of a signup are always stored. *)
Lemma patient_stub_stored (o' : ObjectId) (n : N) :
  let uid := oid_hex (oid_of_counter n) in
  too_large [("_id", JOid o'); ("user_id", JStr uid);
             ("medical_record_number", JStr ("MRN-" ++ py_upper (last6 uid)))] = false.
Proof.
  intros uid. unfold too_large. apply Z.ltb_ge. cbn [bson_size]. unfold str_len.
  rewrite string_app_length, py_upper_length.
  pose proof (oid_counter_length n). pose proof (substring_length_le (String.length uid - 6) 6 uid).
  unfold last6. fold uid in H. cbn [String.length]. unfold MAX_BSON_SIZE. lia.
Qed.

Lemma doctor_stub_stored (o' : ObjectId) (n : N) :
  too_large [("_id", JOid o'); ("user_id", JStr (oid_hex (oid_of_counter n)));
             ("specialization", JNull)] = false.
Proof.
  unfold too_large. apply Z.ltb_ge. cbn [bson_size]. unfold str_len.
  rewrite oid_counter_length. unfold MAX_BSON_SIZE. cbn. lia.
Qed.

(** ** C8: password verification is total *)

(** C8.  [verify_password] returns a boolean for every pair of inputs: it is
    [true] exactly when passlib's [verify] answers [True], and [false] when
    [verify] answers [False] or raises (malformed or foreign hash). *)
Theorem verify_password_never_raises
  (ctx_verify : string -> jval -> result bool) (plain : string) (hashed : jval) :
  (verify_password ctx_verify plain hashed = true <-> ctx_verify plain hashed = Ok true) /\
  (ctx_verify plain hashed = Ok false -> verify_password ctx_verify plain hashed = false) /\
  (forall e, ctx_verify plain hashed = Err e -> verify_password ctx_verify plain hashed = false).
Proof.
  unfold verify_password.
  destruct (ctx_verify plain hashed) as [[|]|e]; repeat split; intros; try congruence.
Qed.

(** ** The auth dependency leaves the world as it found it *)

Ltac case_match :=
  match goal with
  | |- context [match ?x with _ => _ end] => destruct x eqn:?
  end.

Ltac lookup_step :=
  match goal with
  | |- context [str_oid ?s] => destruct (str_oid s) eqn:?
  | |- context [find_first ?f ?l] => destruct (find_first f l) as [[|? ?]|] eqn:?
  | |- context [dget "_id" ?u] => destruct (dget "_id" u) eqn:?
  end.

Lemma get_current_user_pure key hmac now auth w :
  snd (get_current_user key hmac now auth w) = w /\
  (forall u w', get_current_user key hmac now auth w = (Ok u, w') ->
   exists st, db w = Some st).
Proof.
  unfold get_current_user, oauth2_scheme, bind, try_except, lift, ret, raise, check_db.
  destruct auth as [t|]; simpl; [|split; [reflexivity|discriminate]].
  destruct (jwt_decode hmac t key [ALGORITHM] now) as [payload|e]; simpl.
  - destruct (dget_none "sub" payload) eqn:Hsub; simpl;
      try (split; [reflexivity|discriminate]);
      (destruct (db w) as [st|] eqn:Hdb; simpl; [|split; [reflexivity|discriminate]]);
      unfold py_ObjectId, find_one, ret, raise; simpl;
      repeat (cbn -[dget]; rewrite ?Hdb; lookup_step); cbn -[dget];
      (split; [reflexivity|]); intros; try discriminate; eauto.
  - destruct e; simpl; split; (reflexivity || discriminate).
Qed.

(** A protected route whose dependency fails ends with that failure, in the
    world it started from: the handler never runs. *)
Lemma protected_fails {A} key hmac now auth (handler : dict -> M A) w e :
  fst (get_current_user key hmac now auth w) = Err e ->
  protected key hmac now auth handler w = (Err e, w).
Proof.
  intros H. unfold protected, bind.
  destruct (get_current_user_pure key hmac now auth w) as [Hw _].
  destruct (get_current_user key hmac now auth w) as [r w'] eqn:E.
  simpl in *. subst. reflexivity.
Qed.

Lemma protected_runs {A} key hmac now auth (handler : dict -> M A) w u :
  fst (get_current_user key hmac now auth w) = Ok u ->
  protected key hmac now auth handler w = handler u w /\ exists st, db w = Some st.
Proof.
  intros H. unfold protected, bind.
  destruct (get_current_user_pure key hmac now auth w) as [Hw Hdb].
  destruct (get_current_user key hmac now auth w) as [r w'] eqn:E.
  simpl in *. subst. split; [reflexivity|]. eapply Hdb. reflexivity.
Qed.

Lemma protected_body {A} key hmac now auth (handler : dict -> M A) w :
  succeeds (fst (get_current_user key hmac now auth w)) = true ->
  exists u, protected key hmac now auth handler w = handler u w.
Proof.
  intros H. destruct (fst (get_current_user key hmac now auth w)) as [u|e] eqn:E;
    [|discriminate].
  exists u. apply (protected_runs _ _ _ _ handler) in E. tauto.
Qed.


(** ** C10: an upload for an unknown test id still reports success *)


(** ** C7: uploading a result completes the test in one document update *)

(** What [upload_result] does to the first LabTest with the given id. *)
Lemma upload_result_ordered test_id filename w st o pre t post :
  db w = Some st ->
  oid_of_string test_id = Some o ->
  colls st "labtest" = (pre ++ t :: post)%list ->
  forallb (fun d => negb (matches [("_id", JOid o)] d)) pre = true ->
  dget "_id" t = Some (JOid o) ->
  upload_result test_id filename w
  = (if too_large (dset "result_pdf_url"
                     (JStr ("/files/" ++ match filename with Some f => f | None => "None" end))
                     (dset "status" (JStr "completed") t))
     then (Err WriteError, w)
     else (Ok [("message", JStr "Result uploaded")],
           mk_world (Some (set_coll st "labtest"
             (pre ++ dset "result_pdf_url"
                       (JStr ("/files/" ++ match filename with Some f => f | None => "None" end))
                       (dset "status" (JStr "completed") t) :: post)%list)) (oid_inc w))).
Proof.
  intros Hdb Hoid Hcoll Hpre Hid.
  destruct w as [dbw inc]. simpl in Hdb. subst dbw.
  unfold upload_result, bind, check_db, py_ObjectId, lift, update_one, ret; cbn beta iota.
  rewrite (str_oid_valid _ _ Hoid). cbn -[update_docs too_large String.append].
  rewrite update_docs_id, Hcoll. cbn -[update_first too_large String.append].
  rewrite (update_first_app _ _ pre post t
             (dset "result_pdf_url"
                (JStr ("/files/" ++ match filename with Some f => f | None => "None" end))
                (dset "status" (JStr "completed") t))); auto using matches_oid.
  match goal with |- context [if too_large ?d then _ else _] => destruct (too_large d) end;
    reflexivity.
Qed.

(** C7 (as amended).  For an authenticated upload against a LabTest [t]
    with status [ordered] (the first document with that [_id]), the single
    update computes [t'] from [t]: its [status] becomes [completed], its
    [result_pdf_url] the non-null path [/files/<filename>], every other field
    is unchanged.  When [t'] fits the 16 MiB limit of a stored document,
    [t'] replaces [t] and nothing else changes; otherwise the update is
    refused with a write error and nothing changes at all. *)
Theorem upload_result_completes_test
  key hmac now auth test_id filename w st o pre t post :
  succeeds (fst (get_current_user key hmac now auth w)) = true ->
  db w = Some st ->
  oid_of_string test_id = Some o ->
  colls st "labtest" = (pre ++ t :: post)%list ->
  forallb (fun d => negb (matches [("_id", JOid o)] d)) pre = true ->
  dget "_id" t = Some (JOid o) ->
  dget "status" t = Some (JStr "ordered") ->
  let url := "/files/" ++ match filename with Some f => f | None => "None" end in
  let t' := dset "result_pdf_url" (JStr url) (dset "status" (JStr "completed") t) in
  dget "status" t' = Some (JStr "completed") /\
  dget "result_pdf_url" t' = Some (JStr url) /\
  (forall k, k <> "status" -> k <> "result_pdf_url" -> dget k t' = dget k t) /\
  protected key hmac now auth (fun _ => upload_result test_id filename) w
    = (if too_large t' then (Err WriteError, w)
       else (Ok [("message", JStr "Result uploaded")],
             mk_world (Some (set_coll st "labtest" (pre ++ t' :: post)%list)) (oid_inc w))).
Proof.
  intros Hauth Hdb Hoid Hcoll Hpre Hid Hstatus url t'.
  destruct (protected_body _ _ _ _ (fun _ => upload_result test_id filename) w Hauth)
    as [u ->].
  split; [|split; [|split]].
  - unfold t'. rewrite dget_dset_neq by discriminate. apply dget_dset_eq.
  - apply dget_dset_eq.
  - intros k H1 H2. unfold t'. rewrite !dget_dset_neq; auto.
  - exact (upload_result_ordered test_id filename w st o pre t post Hdb Hoid Hcoll Hpre Hid).
Qed.

(** What [signup] does on a configured store: refuse a registered email,
    raise what hashing raises, refuse a User document over 16 MiB (after the
    driver drew its id), or store the User document and the stub. *)
Lemma signup_run ctx_hash now p st inc :
  signup ctx_hash now p (mk_world (Some st) inc) =
  (if truthy (find_first [("email", JStr (email p))] (colls st "user"))
   then (Err Conflict, mk_world (Some st) inc)
   else match get_password_hash ctx_hash (password p) with
        | Err e => (Err e, mk_world (Some st) inc)
        | Ok h =>
            if too_large (("_id", JOid (oid_of_counter inc)) :: signup_user_doc h now p)
            then (Err WriteError, mk_world (Some st) (N.succ inc))
            else (Ok [("id", JStr (oid_hex (oid_of_counter inc)));
                      ("message", JStr "Signup successful")], signup_world st inc h now p)
        end).
Proof.
  unfold signup_world, signup_user_doc.
  unfold signup, bind, check_db, find_one, insert_one, lift, ret, raise.
  cbn -[truthy find_first oid_of_counter py_upper last6 String.eqb too_large get_password_hash].
  destruct (truthy (find_first [("email", JStr (email p))] (colls st "user"))); [reflexivity|].
  destruct (get_password_hash ctx_hash (password p)) as [h|e];
    cbn -[truthy find_first oid_of_counter py_upper last6 String.eqb too_large]; [|reflexivity].
  match goal with |- context [if too_large ?d then _ else _] => destruct (too_large d) end;
    cbn -[truthy find_first oid_of_counter py_upper last6 String.eqb too_large]; [reflexivity|].
  destruct (String.eqb (role p) "patient") eqn:Hp; destruct (String.eqb (role p) "doctor") eqn:Hd;
    cbn -[truthy find_first oid_of_counter py_upper last6 String.eqb too_large String.append];
    rewrite ?patient_stub_stored, ?doctor_stub_stored; try reflexivity;
    apply String.eqb_eq in Hp; apply String.eqb_eq in Hd; congruence.
Qed.

(** ** C5: signup creates the linked profile *)

(** C5.  A successful signup returns the new user's id [U1] (the [_id] of
    the User document it appended).  For role [patient] it appends a
    Patient document with [user_id = U1] and
    [medical_record_number = "MRN-" + U1[-6:].upper()]; for role [doctor] a
    Doctor document with [user_id = U1] and [specialization = None]; for any
    other role neither collection changes. *)
Theorem signup_links_profile ctx_hash now p w r w' :
  signup ctx_hash now p w = (Ok r, w') ->
  exists st st' U1 o ud,
    db w = Some st /\ db w' = Some st' /\
    r = [("id", JStr U1); ("message", JStr "Signup successful")] /\
    oid_hex o = U1 /\
    colls st' "user" = (colls st "user" ++ [("_id", JOid o) :: ud])%list /\
    dget "role" ud = Some (JStr (role p)) /\
    (role p = "patient" ->
       exists o', colls st' "patient"
         = (colls st "patient" ++
            [("_id", JOid o') :: [("user_id", JStr U1);
                                   ("medical_record_number",
                                     JStr ("MRN-" ++ py_upper (last6 U1)))]])%list) /\
    (role p = "doctor" ->
       exists o', colls st' "doctor"
         = (colls st "doctor" ++
            [("_id", JOid o') :: [("user_id", JStr U1); ("specialization", JNull)]])%list) /\
    (role p <> "patient" -> colls st' "patient" = colls st "patient") /\
    (role p <> "doctor" -> colls st' "doctor" = colls st "doctor").
Proof.
  destruct w as [[st|] inc].
  2:{ intros H. vm_compute in H. discriminate. }
  rewrite signup_run.
  destruct (truthy (find_first [("email", JStr (email p))] (colls st "user"))).
  { intros H. discriminate. }
  destruct (get_password_hash ctx_hash (password p)) as [h|e]; [|intros H; discriminate].
  match goal with |- context [if too_large ?d then _ else _] => destruct (too_large d) end.
  { intros H. discriminate. }
  intros H; inversion H; subst; clear H. unfold signup_world.
  destruct (String.eqb (role p) "patient") eqn:Hp;
  destruct (String.eqb (role p) "doctor") eqn:Hd;
    cbn -[truthy find_first oid_of_counter py_upper last6 String.eqb String.append];
    (eexists st, _, _, (oid_of_counter inc), _); (split; [reflexivity|]); (split; [reflexivity|]);
    (split; [reflexivity|]); (split; [reflexivity|]); (split; [reflexivity|]);
    (split; [reflexivity|]);
    apply String.eqb_eq in Hp || apply String.eqb_neq in Hp;
    apply String.eqb_eq in Hd || apply String.eqb_neq in Hd;
    repeat split; intros; try congruence; eexists; reflexivity.
Qed.

(** ** C4: one account per email *)

Lemma truthy_find_single (k : string) (v : jval) (docs : list dict) :
  truthy (find_first [(k, v)] docs) = existsb (matches [(k, v)]) docs.
Proof.
  induction docs as [|d ds IH]; [reflexivity|]. cbn [find_first existsb].
  destruct (matches [(k, v)] d) eqn:E; cbn [orb]; [|exact IH].
  destruct d; [discriminate|reflexivity].
Qed.

Lemma registered_app (users : list dict) (o : ObjectId) (p : SignupRequest)
  (hashed : string) (now : Z) (e : string) :
  existsb (matches [("email", JStr e)])
    (users ++ [stored_doc (("_id", JOid o) :: signup_user_doc hashed now p)])%list
  = existsb (matches [("email", JStr e)]) users || String.eqb e (email p).
Proof.
  rewrite existsb_app. f_equal. simpl. unfold field_matches. simpl.
  rewrite !orb_false_r, andb_true_r. reflexivity.
Qed.

Lemma signup_world_users st inc h now p :
  exists st', db (signup_world st inc h now p) = Some st' /\
    colls st' "user"
      = (colls st "user" ++ [stored_doc (("_id", JOid (oid_of_counter inc)) ::
                                         signup_user_doc h now p)])%list.
Proof.
  unfold signup_world.
  destruct (String.eqb (role p) "patient"), (String.eqb (role p) "doctor");
    eexists; split; reflexivity.
Qed.

(** Without a store, [signup] fails with 500 and changes nothing. *)
Lemma signup_no_db ctx_hash now p w :
  db w = None ->
  signup ctx_hash now p w = (Err (HTTPException 500 "Database not configured"), w).
Proof. destruct w as [dbw inc]. simpl. intros ->. reflexivity. Qed.

(** On a configured store, [signup] either refuses a registered email with
    [Conflict] and changes nothing, or fails on an unstorable password or
    User document (raising what hashing raises, or [WriteError]) and leaves
    the store as it was, or succeeds and registers exactly that email
    besides the old ones. *)
Lemma signup_outcome ctx_hash now p w st :
  db w = Some st ->
  (registered st (email p) = true /\ signup ctx_hash now p w = (Err Conflict, w)) \/
  (registered st (email p) = false /\ signup_storable ctx_hash now p = false /\
   exists e w', signup ctx_hash now p w = (Err e, w') /\ db w' = Some st /\
     (e = WriteError \/ get_password_hash ctx_hash (password p) = Err e)) \/
  (registered st (email p) = false /\ signup_storable ctx_hash now p = true /\
   exists r w' st', signup ctx_hash now p w = (Ok r, w') /\ db w' = Some st' /\
     forall e, registered st' e = registered st e || String.eqb e (email p)).
Proof.
  destruct w as [dbw inc]. simpl. intros ->.
  rewrite signup_run. unfold registered, signup_storable. rewrite <- truthy_find_single.
  destruct (truthy (find_first [("email", JStr (email p))] (colls st "user"))) eqn:Ht.
  { left. split; reflexivity. }
  right. destruct (get_password_hash ctx_hash (password p)) as [h|e] eqn:Hh.
  - rewrite (too_large_id (oid_of_counter 0) (oid_of_counter inc)).
    destruct (too_large (("_id", JOid (oid_of_counter inc)) :: signup_user_doc h now p)).
    + left. split; [reflexivity|]. split; [reflexivity|].
      exists WriteError, (mk_world (Some st) (N.succ inc)). auto.
    + right. split; [reflexivity|]. split; [reflexivity|].
      destruct (signup_world_users st inc h now p) as [st' [Hdb' Hu]].
      do 3 eexists. split; [reflexivity|]. split; [exact Hdb'|].
      intros e. unfold registered. rewrite Hu. apply registered_app.
  - left. split; [reflexivity|]. split; [reflexivity|].
    exists e, (mk_world (Some st) inc). auto.
Qed.

(** C4 (as amended).  Without a configured store every signup of a sequence
    fails with 500 and nothing changes; a failing signup never changes the
    store.  On a configured store: a signup whose email is already
    registered fails with [Conflict] and leaves the world unchanged; in any
    sequence of signups, the [i]-th succeeds exactly when its email is not
    registered beforehand, its password hashes and its User document fits in
    a stored document ([signup_storable]), and no earlier signup of the
    sequence with that email succeeded; every other one fails with
    [Conflict], [WriteError] or the exception hashing raised. *)
Theorem signup_once_per_email ctx_hash now w :
  (db w = None -> forall ps,
     run_signups ctx_hash now ps w
       = (map (fun _ => Err (HTTPException 500 "Database not configured")) ps, w)) /\
  (forall p e w', signup ctx_hash now p w = (Err e, w') -> db w' = db w) /\
  (forall st, db w = Some st ->
   (forall p, registered st (email p) = true ->
      signup ctx_hash now p w = (Err Conflict, w)) /\
   (forall ps i p, nth_error ps i = Some p ->
      exists r, nth_error (fst (run_signups ctx_hash now ps w)) i = Some r /\
        (succeeds r = true <->
           registered st (email p) = false /\ signup_storable ctx_hash now p = true /\
           ~ In (email p) (signed_up (firstn i ps) (fst (run_signups ctx_hash now ps w)))) /\
        (succeeds r = false -> exists e, r = Err e /\
           (e = Conflict \/ e = WriteError \/ get_password_hash ctx_hash (password p) = Err e)))).
Proof.
  split; [|split].
  { intros Hdb ps. induction ps as [|q ps IH]; [reflexivity|].
    simpl. rewrite (signup_no_db ctx_hash now q w Hdb), IH. reflexivity. }
  { intros p e w' Hs. destruct (db w) as [st|] eqn:Hdb.
    - destruct (signup_outcome ctx_hash now p w st Hdb)
        as [[_ H]|[[_ [_ [e' [w2 [H [Hdb2 _]]]]]]|[_ [_ [r [w2 [st2 [H _]]]]]]]];
        rewrite Hs in H; try discriminate; injection H; intros; subst w'; congruence.
    - rewrite (signup_no_db ctx_hash now p w Hdb) in Hs. injection Hs as _ <-. exact Hdb. }
  intros st Hdb. split.
  { intros p Hreg.
    destruct (signup_outcome ctx_hash now p w st Hdb) as [[_ H]|[[H _]|[H _]]];
      [exact H|congruence|congruence]. }
  intros ps. revert w st Hdb.
  induction ps as [|q ps IH]; intros w st Hdb i p Hi; [destruct i; discriminate|].
  destruct (signup_outcome ctx_hash now q w st Hdb)
    as [[Hreg Hs]|[[Hreg [Hsto [e [w' [Hs [Hdb' He]]]]]]
                  |[Hreg [Hsto [r [w' [st' [Hs [Hdb' Hst']]]]]]]]].
  - simpl. rewrite Hs.
    destruct (run_signups ctx_hash now ps w) as [rs w2] eqn:Hrun.
    destruct i as [|i]; simpl in Hi.
    + injection Hi as <-. exists (Err Conflict). simpl. split; [reflexivity|]. split.
      * split; [discriminate|]. intros [H _]. congruence.
      * intros _. exists Conflict. auto.
    + destruct (IH w st Hdb i p Hi) as [r' [Hr' [Hiff Hc]]].
      rewrite Hrun in Hr', Hiff. simpl in Hr', Hiff. exists r'. simpl.
      split; [exact Hr'|]. split; [exact Hiff|exact Hc].
  - simpl. rewrite Hs.
    destruct (run_signups ctx_hash now ps w') as [rs w2] eqn:Hrun.
    destruct i as [|i]; simpl in Hi.
    + injection Hi as <-. exists (Err e). simpl. split; [reflexivity|]. split.
      * split; [discriminate|]. intros [_ [H _]]. congruence.
      * intros _. exists e. split; [reflexivity|]. destruct He; auto.
    + destruct (IH w' st Hdb' i p Hi) as [r' [Hr' [Hiff Hc]]].
      rewrite Hrun in Hr', Hiff. simpl in Hr', Hiff. exists r'. simpl.
      split; [exact Hr'|]. split; [exact Hiff|exact Hc].
  - simpl. rewrite Hs.
    destruct (run_signups ctx_hash now ps w') as [rs w2] eqn:Hrun.
    destruct i as [|i]; simpl in Hi.
    + injection Hi as <-. exists (Ok r). simpl. split; [reflexivity|]. split.
      * split; [intros _; split; [exact Hreg|split; [exact Hsto|intros []]]|reflexivity].
      * discriminate.
    + destruct (IH w' st' Hdb' i p Hi) as [r' [Hr' [Hiff Hc]]].
      rewrite Hrun in Hr', Hiff. simpl in Hr', Hiff. exists r'. simpl.
      split; [exact Hr'|]. split; [|exact Hc].
      rewrite Hiff, Hst'.
      destruct (registered st (email p)); simpl;
        [split; intros [H _]; discriminate|].
      destruct (String.eqb (email p) (email q)) eqn:E; simpl.
      * apply String.eqb_eq in E. split; [intros [H _]; discriminate|].
        intros [_ [_ H]]. exfalso. apply H. left. symmetry. exact E.
      * apply String.eqb_neq in E. split.
        -- intros [_ [Hs2 H]]. split; [reflexivity|]. split; [exact Hs2|].
           intros [H'|H']; [congruence|contradiction].
        -- intros [_ [Hs2 H]]. split; [reflexivity|]. split; [exact Hs2|].
           intros H'. apply H. right. exact H'.
Qed.

(** ** C9: the role of a signup is not checked *)

(** C9 (code bug).  [SignupRequest.role] is a plain [str], while
    [schemas.User.role] is [Literal['doctor','nurse','patient','lab',
    'pharmacy','admin']]: a signup with role ["superuser"] is accepted and
    writes a User document with that role. *)
Theorem signup_stores_unlisted_role :
  fst (signup demo_hash 5 mallory w0)
    = Ok [("id", JStr "000000000000000000000000"); ("message", JStr "Signup successful")] /\
  match db (snd (signup demo_hash 5 mallory w0)) with
  | Some st' => existsb (fun d => match dget "role" d with
                                  | Some (JStr r) => String.eqb r "superuser"
                                  | _ => false
                                  end) (colls st' "user")
  | None => false
  end = true.
Proof. split; vm_compute; reflexivity. Qed.

(** C4: with the database not configured, no signup succeeds. *)
Lemma signup_without_database :
  fst (signup demo_hash 5 alice (mk_world None 0))
    = Err (HTTPException 500 "Database not configured").
Proof. vm_compute. reflexivity. Qed.

(** ** C6: dispensing swallows per-item failures *)







Lemma bson_size_cons (k : string) (x : jval) (xs : dict) :
  bson_size (JObj ((k, x) :: xs)) = 1 + str_len k + 1 + bson_size x + bson_size (JObj xs).
Proof. cbn [bson_size]. lia. Qed.


(** Replacing a field's value changes the document's size by the change of
    the value's size. *)
Lemma bson_size_dset_any (k : string) (v v' : jval) (d : dict) :
  dget k d = Some v ->
  bson_size (JObj (dset k v' d)) = bson_size (JObj d) - bson_size v + bson_size v'.
Proof.
  intros Hk. induction d as [|[k' x] d IH]; [discriminate|].
  simpl in Hk. cbn [dset].
  destruct (String.eqb k k') eqn:E.
  - injection Hk as ->. apply String.eqb_eq in E. subst k'. rewrite !bson_size_cons. lia.
  - rewrite !bson_size_cons, IH by exact Hk. lia.
Qed.



(** ** C2: token lifetime *)

(** An access token whose role cannot be serialised is never issued. *)
Lemma access_token_unencodable key hmac now s r ed :
  json_ok r = false ->
  create_access_token key hmac now [("sub", JStr s); ("role", r)] ed = Err TypeError.
Proof.
  intros Hr. unfold create_access_token, jwt_encode. simpl. rewrite Hr. reflexivity.
Qed.

(** What [jwt.decode] makes of an untampered access token at time [t]. *)
Lemma access_token_decode key hmac now s r ed t :
  ed <> Some 0 -> json_ok r = true ->
  let T := match ed with Some d => d | None => minutes ACCESS_TOKEN_EXPIRE_MINUTES end in
  exists tok, create_access_token key hmac now [("sub", JStr s); ("role", r)] ed = Ok tok /\
  jwt_decode hmac tok key [ALGORITHM] t
    = (if (now + T) / 1000000 * 1000000 <=? t
       then Err (PyJWTError ExpiredSignatureError)
       else Ok [("sub", JStr s); ("role", r); ("exp", JInt ((now + T) / 1000000))]).
Proof.
  intros Hed Hr T. unfold create_access_token, jwt_encode.
  assert (Hdelta : match ed with
                   | Some d => if d =? 0 then minutes ACCESS_TOKEN_EXPIRE_MINUTES else d
                   | None => minutes ACCESS_TOKEN_EXPIRE_MINUTES
                   end = T).
  { unfold T. destruct ed as [d|]; [|reflexivity].
    destruct (Z.eqb_spec d 0); [congruence|reflexivity]. }
  rewrite Hdelta. simpl. rewrite Hr. simpl.
  eexists. split; [reflexivity|].
  unfold jwt_decode. cbn. rewrite String.eqb_refl. cbn.
  destruct ((now + T) / 1000000 * 1000000 <=? t); reflexivity.
Qed.

(** Whole seconds below [x] lie within one second of it. *)
Lemma floor_seconds_bounds (x : Z) :
  x / 1000000 * 1000000 <= x /\ x < x / 1000000 * 1000000 + 1000000.
Proof.
  pose proof (Z.div_mod x 1000000 ltac:(lia)).
  pose proof (Z.mod_pos_bound x 1000000 ltac:(lia)). lia.
Qed.

(** C2, as the code has it.  [create_access_token] at time [now]
    (microseconds) with a TTL [T] (the [expires_delta] given, 8 hours when
    none) for a subject and role raises [TypeError] when [json.dumps] cannot
    serialise the role.  Otherwise the token it issues carries
    [exp = floor((now + T) / 1 s)] in whole seconds; decoding it untampered,
    with the key it was signed with, at time [t] rejects it as expired
    exactly when [floor((now + T) / 1 s) * 1 s <= t] and returns its claims
    otherwise.  So every [t > now + T] is rejected, and every [t] at least
    one second before [now + T] is accepted; in the last (sub-)second before
    [now + T] it may already be rejected. *)
Theorem access_token_expiry key hmac now s r ed t :
  ed <> Some 0 ->
  let T := match ed with Some d => d | None => minutes ACCESS_TOKEN_EXPIRE_MINUTES end in
  let claims := [("sub", JStr s); ("role", r); ("exp", JInt ((now + T) / 1000000))] in
  (json_ok r = false ->
     create_access_token key hmac now [("sub", JStr s); ("role", r)] ed = Err TypeError) /\
  (json_ok r = true ->
   exists tok, create_access_token key hmac now [("sub", JStr s); ("role", r)] ed = Ok tok /\
  jwt_decode hmac tok key [ALGORITHM] t
    = (if (now + T) / 1000000 * 1000000 <=? t
       then Err (PyJWTError ExpiredSignatureError) else Ok claims) /\
  (now + T < t -> jwt_decode hmac tok key [ALGORITHM] t = Err (PyJWTError ExpiredSignatureError)) /\
  (t + 1000000 <= now + T -> jwt_decode hmac tok key [ALGORITHM] t = Ok claims)).
Proof.
  intros Hed T claims. split; [apply access_token_unencodable|].
  intros Hr.
  destruct (access_token_decode key hmac now s r ed t Hed Hr) as [tok [Htok Hdec]].
  fold T claims in Hdec.
  exists tok. split; [exact Htok|].
  destruct (floor_seconds_bounds (now + T)) as [Hlo Hhi].
  split; [exact Hdec|split]; intros Ht; rewrite Hdec.
  - destruct (Z.leb_spec ((now + T) / 1000000 * 1000000) t); [reflexivity|lia].
  - destruct (Z.leb_spec ((now + T) / 1000000 * 1000000) t); [lia|reflexivity].
Qed.

(** C2: a token issued at 0.5 s with the default 8 hours is rejected as
    expired 0.2 s before [issue_time + T]. *)
Lemma access_token_expired_early :
  match create_access_token demo_key demo_hmac 500000
          [("sub", JStr (oid_hex uid0)); ("role", JStr "lab")] None with
  | Ok tok => jwt_decode demo_hmac tok demo_key [ALGORITHM]
                (500000 + minutes ACCESS_TOKEN_EXPIRE_MINUTES - 200000)
  | Err e => Err e
  end
  = Err (PyJWTError ExpiredSignatureError).
Proof. vm_compute. reflexivity. Qed.

(** ** C3: login *)

Lemma find_first_email_nonempty (e : string) (docs : list dict) (u : dict) :
  find_first [("email", JStr e)] docs = Some u -> u <> [].
Proof.
  induction docs as [|d ds IH]; cbn -[matches]; [discriminate|].
  destruct (matches [("email", JStr e)] d) eqn:Hm; [|exact IH].
  intros H Hu. injection H as <-. subst. discriminate Hm.
Qed.

(** Decoding a token issued at [now] with the default lifetime, at a time
    [t] at least one second before it runs out. *)
Lemma access_token_fresh key hmac now s r t :
  json_ok r = true ->
  t + 1000000 <= now + minutes ACCESS_TOKEN_EXPIRE_MINUTES ->
  exists tok, create_access_token key hmac now [("sub", JStr s); ("role", r)] None = Ok tok /\
  jwt_decode hmac tok key [ALGORITHM] t
  = Ok [("sub", JStr s); ("role", r);
        ("exp", JInt ((now + minutes ACCESS_TOKEN_EXPIRE_MINUTES) / 1000000))].
Proof.
  intros Hr Ht.
  destruct (access_token_decode key hmac now s r None t ltac:(discriminate) Hr)
    as [tok [Htok Hdec]].
  exists tok. split; [exact Htok|]. rewrite Hdec.
  destruct (floor_seconds_bounds (now + minutes ACCESS_TOKEN_EXPIRE_MINUTES)) as [Hlo Hhi].
  cbn beta iota.
  destruct (Z.leb_spec ((now + minutes ACCESS_TOKEN_EXPIRE_MINUTES) / 1000000 * 1000000) t);
    [lia|reflexivity].
Qed.



(** ** C1: the authentication dependency *)

(** A document found by [_id] has an [_id]. *)
Lemma find_first_id (o : ObjectId) (docs : list dict) (u : dict) :
  find_first [("_id", JOid o)] docs = Some u -> dget "_id" u <> None.
Proof.
  induction docs as [|d ds IH]; cbn -[matches]; [discriminate|].
  destruct (matches [("_id", JOid o)] d) eqn:Hm; [|exact IH].
  intros H. injection H as <-. unfold matches in Hm. simpl in Hm.
  destruct (dget "_id" d); [discriminate|discriminate Hm].
Qed.

(** C1, as the code has it.  [get_current_user] writes nothing, and with a
    bearer token [t] decoded at time [now]:
    - no token: 401 "Not authenticated";
    - [jwt.decode] raises a [PyJWTError] (malformed, wrong algorithm, bad
      signature, expired, [iat] or [nbf] in the future, an [aud] claim, a
      [sub] or [jti] that is not a string): 401 "Could not validate
      credentials"; another exception escapes as it is;
    - no [sub] (or [sub] null): 401;
    - otherwise, with the database not configured: 500 "Database not
      configured";
    - otherwise, [sub] naming no User: 401;
    - otherwise the User document, with its [_id] replaced by its string.
    Any failure ends a protected route in the world it started from. *)
Theorem get_current_user_outcome key hmac now auth w :
  let res := get_current_user key hmac now auth w in
  snd res = w /\
  (forall A (handler : dict -> M A) e,
     fst res = Err e -> protected key hmac now auth handler w = (Err e, w)) /\
  (auth = None -> fst res = Err (HTTPException 401 "Not authenticated")) /\
  (forall t e, auth = Some t -> jwt_decode hmac t key [ALGORITHM] now = Err e ->
     fst res = Err (match e with PyJWTError _ => credentials_exception | _ => e end)) /\
  (forall t p, auth = Some t -> jwt_decode hmac t key [ALGORITHM] now = Ok p ->
     dget_none "sub" p = JNull -> fst res = Err credentials_exception) /\
  (forall t p, auth = Some t -> jwt_decode hmac t key [ALGORITHM] now = Ok p ->
     dget_none "sub" p <> JNull -> db w = None ->
     fst res = Err (HTTPException 500 "Database not configured")) /\
  (forall t p st, auth = Some t -> jwt_decode hmac t key [ALGORITHM] now = Ok p ->
     dget_none "sub" p <> JNull -> db w = Some st ->
     match user_lookup st (dget_none "sub" p) with
     | None | Some [] => fst res = Err credentials_exception
     | Some u => exists i, dget "_id" u = Some i /\
                   fst res = Ok (dset "_id" (JStr (py_str i)) u)
     end).
Proof.
  intros res.
  split; [apply get_current_user_pure|].
  split; [intros A handler e He; apply protected_fails; exact He|].
  destruct w as [dbw inc].
  unfold res, get_current_user, oauth2_scheme, bind, try_except, lift, ret, raise, check_db.
  split; [intros ->; reflexivity|].
  split; [|split; [|split]].
  - intros t e -> Hdec. cbn -[jwt_decode dget]. rewrite Hdec. cbn -[dget].
    destruct e; reflexivity.
  - intros t p -> Hdec Hsub. cbn -[jwt_decode dget]. rewrite Hdec. cbn -[dget].
    rewrite Hsub. reflexivity.
  - intros t p -> Hdec Hsub Hdb. simpl in Hdb. subst dbw. cbn -[jwt_decode dget].
    rewrite Hdec. cbn -[dget dget_none].
    destruct (dget_none "sub" p); [congruence|reflexivity..].
  - intros t p st -> Hdec Hsub Hdb. simpl in Hdb. subst dbw. cbn -[jwt_decode dget].
    rewrite Hdec. cbn -[dget dget_none].
    unfold user_lookup, sub_oid, py_ObjectId, find_one, new_oid.
    destruct (dget_none "sub" p) eqn:Hs; try congruence;
      cbn -[dget find_first oid_of_string dset py_str];
      repeat (lookup_step; cbn -[dget find_first oid_of_string dset py_str]);
      try reflexivity; eauto.
  all: exfalso; eapply find_first_id; eauto.
Qed.

(** ** Further properties of the routes *)

Lemma find_first_none_iff (flt : dict) (docs : list dict) :
  find_first flt docs = None <-> existsb (matches flt) docs = false.
Proof.
  induction docs as [|d ds IH]; cbn -[matches]; [tauto|].
  destruct (matches flt d); simpl; [split; discriminate|exact IH].
Qed.

Lemma find_first_app_none (flt : dict) (l m : list dict) :
  find_first flt l = None -> find_first flt (l ++ m)%list = find_first flt m.
Proof.
  induction l as [|d ds IH]; cbn -[matches]; [reflexivity|].
  destruct (matches flt d); [discriminate|exact IH].
Qed.

(** The hash [get_password_hash] returns is the backend's. *)
Lemma get_password_hash_ok ctx_hash pw h :
  get_password_hash ctx_hash pw = Ok h -> ctx_hash pw = Ok h.
Proof.
  unfold get_password_hash.
  destruct (4096 <? py_len pw); [discriminate|]. destruct (has_nul pw); [discriminate|].
  exact (fun H => H).
Qed.

(** A successful [signup] on a configured store: the email was free, the
    password hashed, the returned id is the new User's, one User document is
    appended, and a linked Patient or Doctor stub for those roles; nothing
    else changes. *)
Lemma signup_success ctx_hash now p st inc r w' :
  signup ctx_hash now p (mk_world (Some st) inc) = (Ok r, w') ->
  let o := oid_of_counter inc in
  let o' := oid_of_counter (N.succ inc) in
  registered st (email p) = false /\
  r = [("id", JStr (oid_hex o)); ("message", JStr "Signup successful")] /\
  exists h st', get_password_hash ctx_hash (password p) = Ok h /\ db w' = Some st' /\
    colls st' "user"
      = (colls st "user" ++ [stored_doc (("_id", JOid o) :: signup_user_doc h now p)])%list /\
    colls st' "patient"
      = (colls st "patient" ++
         if String.eqb (role p) "patient"
         then [[("_id", JOid o'); ("user_id", JStr (oid_hex o));
                ("medical_record_number", JStr ("MRN-" ++ py_upper (last6 (oid_hex o))))]]
         else [])%list /\
    colls st' "doctor"
      = (colls st "doctor" ++
         if String.eqb (role p) "doctor"
         then [[("_id", JOid o'); ("user_id", JStr (oid_hex o)); ("specialization", JNull)]]
         else [])%list /\
    (forall c, c <> "user" -> c <> "patient" -> c <> "doctor" -> colls st' c = colls st c).
Proof.
  intros Hs o o'. rewrite signup_run in Hs.
  unfold registered. rewrite <- truthy_find_single.
  destruct (truthy (find_first [("email", JStr (email p))] (colls st "user"))); [discriminate|].
  destruct (get_password_hash ctx_hash (password p)) as [h|e]; [|discriminate].
  match type of Hs with context [if too_large ?d then _ else _] => destruct (too_large d) end;
    [discriminate|].
  injection Hs as <- <-. split; [reflexivity|]. split; [reflexivity|].
  exists h. unfold signup_world. fold o o'.
  destruct (String.eqb (role p) "patient") eqn:Hp;
  destruct (String.eqb (role p) "doctor") eqn:Hd.
  1: { apply String.eqb_eq in Hp. apply String.eqb_eq in Hd. congruence. }
  all: eexists; split; [reflexivity|]; split; [reflexivity|];
    rewrite !set_coll_same; cbn -[oid_of_counter py_upper last6 stored_doc];
    rewrite ?app_nil_r; (split; [reflexivity|]); (split; [reflexivity|]);
    (split; [reflexivity|]);
    intros c H1 H2 H3; rewrite ?set_coll_same;
    repeat match goal with
           | |- context [String.eqb c ?x] =>
               let E := fresh in destruct (String.eqb c x) eqn:E;
               [apply String.eqb_eq in E; congruence|]
           end; reflexivity.
Qed.

Lemma matches_email_self (e : string) (d : dict) :
  dget "email" d = Some (JStr e) -> matches [("email", JStr e)] d = true.
Proof.
  intros H. unfold matches. simpl. rewrite H. unfold field_matches. simpl.
  rewrite string_eqb_refl'. reflexivity.
Qed.

(** X1.  Signing up and then logging in with the same email and password (when
    the hashing library verifies its own hashes) yields a token for the new
    account: [sub] is the id [signup] returned, [role] the requested role,
    and the token decodes to them for its 8 hours less at most a second. *)
Theorem signup_then_login key hmac ctx_hash ctx_verify now now' p st inc r w' :
  signup ctx_hash now p (mk_world (Some st) inc) = (Ok r, w') ->
  (forall h, ctx_hash (password p) = Ok h -> ctx_verify (password p) (JStr h) = Ok true) ->
  let U1 := oid_hex (oid_of_counter inc) in
  r = [("id", JStr U1); ("message", JStr "Signup successful")] /\
  exists tok,
    create_access_token key hmac now' [("sub", JStr U1); ("role", JStr (role p))] None = Ok tok /\
    login key hmac ctx_verify now' (mk_form (email p) (password p)) w' = (Ok tok, w') /\
    (forall t, t + 1000000 <= now' + minutes ACCESS_TOKEN_EXPIRE_MINUTES ->
       exists claims, jwt_decode hmac tok key [ALGORITHM] t = Ok claims /\
         dget "sub" claims = Some (JStr U1) /\ dget "role" claims = Some (JStr (role p))).
Proof.
  intros Hs Hv U1.
  destruct (signup_success ctx_hash now p st inc r w' Hs)
    as [Hreg [Hr [h [st' [Hh [Hdb' [Huser _]]]]]]].
  assert (HM : minutes ACCESS_TOKEN_EXPIRE_MINUTES = 28800000000) by reflexivity.
  destruct (access_token_fresh key hmac now' U1 (JStr (role p)) now' eq_refl ltac:(lia))
    as [tok [Htok _]].
  split; [exact Hr|]. exists tok. split; [exact Htok|]. split.
  - destruct w' as [dbw' inc']. simpl in Hdb'. subst dbw'.
    unfold login, check_db, bind, find_one, raise, ret, lift.
    cbn beta iota zeta delta [db oid_inc].
    rewrite Huser.
    unfold registered in Hreg. apply find_first_none_iff in Hreg.
    rewrite (find_first_app_none _ _ _ Hreg).
    cbn -[matches oid_of_counter create_access_token verify_password].
    rewrite matches_email_self by reflexivity.
    unfold verify_password. cbn -[oid_of_counter create_access_token].
    rewrite (Hv h (get_password_hash_ok _ _ _ Hh)).
    cbn -[oid_of_counter create_access_token]. unfold U1 in Htok. rewrite Htok.
    reflexivity.
  - intros t Ht.
    destruct (access_token_fresh key hmac now' U1 (JStr (role p)) t eq_refl Ht)
      as [tok' [Htok' Hdec]].
    rewrite Htok in Htok'. injection Htok' as <-.
    eexists. split; [exact Hdec|]. split; reflexivity.
Qed.

(** X2.  Logging in and presenting the token: when login finds User [u] by email
    and accepts the password, and [u]'s id is a well-formed ObjectId that
    names [u], the token authenticates as [u] (its [_id] as a string) at any
    time up to a second before its 8 hours run out; [is_active] is never
    consulted.  A role [json.dumps] cannot serialise makes login raise
    [TypeError] instead.  Neither call writes. *)
Theorem login_then_authenticate key hmac ctx_verify now t form w st u o :
  db w = Some st ->
  find_first [("email", JStr (username form))] (colls st "user") = Some u ->
  verify_password ctx_verify (form_password form)
    (match dget "password_hash" u with Some h => h | None => JStr "" end) = true ->
  dget "_id" u = Some (JOid o) ->
  oid_of_string (oid_hex o) = Some o ->
  find_first [("_id", JOid o)] (colls st "user") = Some u ->
  t + 1000000 <= now + minutes ACCESS_TOKEN_EXPIRE_MINUTES ->
  let r := match dget "role" u with Some r => r | None => JStr "user" end in
  (json_ok r = false -> login key hmac ctx_verify now form w = (Err TypeError, w)) /\
  (json_ok r = true ->
   exists tok, login key hmac ctx_verify now form w = (Ok tok, w) /\
    get_current_user key hmac t (Some tok) w = (Ok (dset "_id" (JStr (oid_hex o)) u), w)).
Proof.
  intros Hdb Hf Hv Hid Ho Hfid Ht.
  pose proof (find_first_email_nonempty _ _ _ Hf) as Hne.
  destruct u as [|kv u']; [congruence|].
  intros r.
  destruct w as [dbw inc]. simpl in Hdb. subst dbw.
  assert (Hlogin : login key hmac ctx_verify now form (mk_world (Some st) inc)
                   = (create_access_token key hmac now [("sub", JStr (py_str (JOid o))); ("role", r)]
                        None, mk_world (Some st) inc)).
  { unfold login, check_db, bind, find_one, raise, ret, lift.
    cbn beta iota zeta delta [db oid_inc].
    rewrite Hf. cbn -[verify_password dget create_access_token]. rewrite Hv.
    cbn -[dget create_access_token]. rewrite Hid. reflexivity. }
  split.
  - intros Hr. rewrite Hlogin, (access_token_unencodable _ _ _ _ _ _ Hr). reflexivity.
  - intros Hr.
    destruct (access_token_fresh key hmac now (py_str (JOid o)) r t Hr Ht) as [tok [Htok Hdec]].
    exists tok. split; [rewrite Hlogin, Htok; reflexivity|].
    unfold get_current_user, oauth2_scheme, bind, try_except, lift, ret, raise, check_db.
    cbn beta iota zeta delta [db oid_inc].
    rewrite Hdec.
    unfold py_ObjectId, find_one. cbn -[str_oid find_first dset].
    rewrite (str_oid_valid _ _ Ho). cbn -[str_oid find_first dset]. rewrite Hfid.
    cbn -[dget dset]. rewrite Hid. reflexivity.
Qed.

Lemma dset_present (k : string) (v : jval) (d : dict) :
  dget k d = Some v -> dset k v d = d.
Proof.
  induction d as [|[k' v'] d IH]; simpl; [discriminate|].
  destruct (String.eqb k k') eqn:E; intros H.
  - injection H as ->. apply String.eqb_eq in E. subst. reflexivity.
  - rewrite IH; auto.
Qed.

Lemma set_coll_twice (st : Store) (c : string) (docs : list dict) :
  set_coll (set_coll st c docs) c docs = set_coll st c docs.
Proof.
  unfold set_coll. cbn. f_equal. apply functional_extensionality. intros c'.
  destruct (String.eqb c' c); reflexivity.
Qed.

(** Setting two fields other than [_id] a second time changes nothing. *)
Lemma update_set2_twice (o : ObjectId) (a b : string) (va vb : jval)
      (docs docs' : list dict) (n : nat) :
  a <> "_id" -> b <> "_id" -> b <> a ->
  update_first [("_id", JOid o)] (USet [(a, va); (b, vb)]) docs = Ok (docs', n) ->
  update_first [("_id", JOid o)] (USet [(a, va); (b, vb)]) docs' = Ok (docs', n).
Proof.
  intros Ha Hb Hab. revert docs' n.
  induction docs as [|d ds IH]; intros docs' n; cbn -[matches apply_update too_large].
  - intros H. injection H as <- <-. reflexivity.
  - destruct (matches [("_id", JOid o)] d) eqn:Hm.
    + cbn -[matches too_large].
      set (d' := dset b (bson_stored vb) (dset a (bson_stored va) d)).
      assert (Hm' : matches [("_id", JOid o)] d' = matches [("_id", JOid o)] d).
      { unfold matches. cbn -[dget]. unfold d'.
        rewrite !dget_dset_neq by congruence. reflexivity. }
      assert (Hga : dget a d' = Some (bson_stored va))
        by (unfold d'; rewrite dget_dset_neq by congruence; apply dget_dset_eq).
      assert (Hgb : dget b d' = Some (bson_stored vb)) by (unfold d'; apply dget_dset_eq).
      clearbody d'.
      destruct (too_large d') eqn:Hbig; intros H; [discriminate|].
      injection H as <- <-. cbn -[matches too_large].
      rewrite Hm', Hm. cbn -[too_large].
      rewrite (dset_present a _ d' Hga), (dset_present b _ d' Hgb), Hbig. reflexivity.
    + destruct (update_first [("_id", JOid o)] (USet [(a, va); (b, vb)]) ds)
        as [[ds' m]|e] eqn:Hu; intros H; [|discriminate].
      injection H as <- <-. cbn -[matches apply_update too_large]. rewrite Hm.
      rewrite (IH ds' m eq_refl). reflexivity.
Qed.

Lemma update_docs_set2_twice (o : ObjectId) (a b : string) (va vb : jval)
      (docs docs' : list dict) (n : nat) :
  a <> "_id" -> b <> "_id" -> b <> a ->
  update_docs [("_id", JOid o)] (USet [(a, va); (b, vb)]) docs = Ok (docs', n) ->
  update_docs [("_id", JOid o)] (USet [(a, va); (b, vb)]) docs' = Ok (docs', n).
Proof.
  intros Ha Hb Hab. rewrite !update_docs_id.
  destruct (bson_check_doc (update_fields (USet [(a, va); (b, vb)]))); [|discriminate].
  cbv beta iota. apply update_set2_twice; assumption.
Qed.

(** X3.  Uploading the same result twice leaves the store, and the answer, as
    uploading it once: [upload_result] is idempotent. *)
Theorem upload_result_idempotent test_id filename w :
  upload_result test_id filename (snd (upload_result test_id filename w))
    = upload_result test_id filename w.
Proof.
  destruct w as [[st|] inc]; [|reflexivity].
  unfold upload_result, bind, check_db, py_ObjectId, update_one, ret, raise, lift.
  cbn beta iota zeta delta [db oid_inc].
  destruct (str_oid test_id) as [o|] eqn:Ho; cbn beta iota zeta delta [db oid_inc snd];
    [|reflexivity].
  destruct (update_docs [("_id", JOid o)]
              (USet [("status", JStr "completed");
                     ("result_pdf_url", JStr ("/files/" ++ match filename with
                                                            | Some f => f
                                                            | None => "None" end))])
              (colls st "labtest")) as [[docs n]|e] eqn:Hu;
    cbn beta iota zeta delta [db oid_inc snd fst].
  - rewrite set_coll_same, String.eqb_refl.
    rewrite (update_docs_set2_twice o "status" "result_pdf_url" _ _ _ _ _ ltac:(discriminate)
               ltac:(discriminate) ltac:(discriminate) Hu).
    rewrite set_coll_twice. reflexivity.
  - rewrite Hu. reflexivity.
Qed.

Lemma filter_matches_nil (docs : list dict) : filter (matches []) docs = docs.
Proof. induction docs as [|d ds IH]; simpl; [reflexivity|]. rewrite IH. reflexivity. Qed.

Lemma serialize_ids_ok (l : list dict) :
  (forall d, In d l -> dget "_id" d <> None) -> serialize_ids l = Ok (map serialize_id l).
Proof.
  induction l as [|d ds IH]; intros H; [reflexivity|]. cbn -[dget dset py_str].
  unfold serialize_id at 1.
  destruct (dget "_id" d) eqn:E; [|exfalso; apply (H d); [left; reflexivity|exact E]].
  rewrite IH; [reflexivity|]. intros x Hx. apply H. right. exact Hx.
Qed.

Lemma serialize_ids_length (l l' : list dict) :
  serialize_ids l = Ok l' -> length l' = length l.
Proof.
  revert l'. induction l as [|d ds IH]; intros l' H; simpl in H.
  - injection H as <-. reflexivity.
  - destruct (dget "_id" d); [|discriminate].
    destruct (serialize_ids ds) as [r|e] eqn:E; [|discriminate].
    injection H as <-. simpl. f_equal. apply IH. reflexivity.
Qed.

Lemma insert_desc_perm cmp (key : string) (d : dict) (l : list dict) :
  Permutation (insert_desc cmp key d l) (d :: l).
Proof.
  induction l as [|x xs IH]; simpl; [reflexivity|].
  destruct (cmp (dget_none key d) (dget_none key x)); try reflexivity.
  eapply perm_trans; [apply perm_skip; exact IH|]. apply perm_swap.
Qed.

Lemma sort_desc_perm cmp (key : string) (l : list dict) :
  Permutation (sort_desc cmp key l) l.
Proof.
  induction l as [|d ds IH]; simpl; [reflexivity|].
  eapply perm_trans; [apply insert_desc_perm|]. apply perm_skip. exact IH.
Qed.

Lemma has_ids_filter_sort cmp (key : string) (flt : dict) (docs : list dict) :
  (forall d, In d docs -> dget "_id" d <> None) ->
  forall d, In d (sort_desc cmp key (filter (matches flt) docs)) -> dget "_id" d <> None.
Proof.
  intros H d Hd. apply H.
  apply (Permutation_in _ (sort_desc_perm cmp key _)) in Hd.
  apply filter_In in Hd. exact (proj1 Hd).
Qed.

(** A sorted listing of collection [c] filtered on [patient_id]. *)
Lemma sorted_listing cmp (c key pid : string) (st : Store) (inc : N) :
  has_ids st c ->
  exists l,
    (check_db ;; items <- find c [("patient_id", JStr pid)] ;;
     lift (serialize_ids (sort_desc cmp key items))) (mk_world (Some st) inc)
      = (Ok l, mk_world (Some st) inc) /\
    Permutation l (map serialize_id (filter (matches [("patient_id", JStr pid)]) (colls st c))).
Proof.
  intros H. eexists. split.
  - unfold check_db, find, bind, lift, ret. cbn beta iota zeta delta [db].
    rewrite serialize_ids_ok; [reflexivity|]. apply has_ids_filter_sort. exact H.
  - apply Permutation_map. apply sort_desc_perm.
Qed.

Lemma dashboard_eq today st inc :
  dashboard today (mk_world (Some st) inc)
    = (Ok [("appointments_today",
             JInt (Z.of_nat (length (filter (matches [("date", JStr today)])
                                            (colls st "appointment")))));
           ("patients_total", JInt (Z.of_nat (length (colls st "patient"))));
           ("lab_pending",
             JInt (Z.of_nat (length (filter (matches [("status", JStr "ordered")])
                                            (colls st "labtest")))));
           ("alerts", JList [])], mk_world (Some st) inc).
Proof.
  unfold dashboard, check_db, count_documents, bind, ret. cbn beta iota zeta delta [db].
  rewrite filter_matches_nil. reflexivity.
Qed.

(** X5.  The dashboard writes nothing, and completing an [ordered] lab test by
    [upload_result] lowers its [lab_pending] count by exactly one, leaving
    the other counts as they were; an update refused for exceeding 16 MiB
    changes no count. *)
Theorem upload_result_clears_pending today test_id filename w st o pre t post :
  db w = Some st ->
  oid_of_string test_id = Some o ->
  colls st "labtest" = (pre ++ t :: post)%list ->
  forallb (fun d => negb (matches [("_id", JOid o)] d)) pre = true ->
  dget "_id" t = Some (JOid o) ->
  dget "status" t = Some (JStr "ordered") ->
  let url := "/files/" ++ match filename with Some f => f | None => "None" end in
  let t' := dset "result_pdf_url" (JStr url) (dset "status" (JStr "completed") t) in
  let w' := snd (upload_result test_id filename w) in
  exists a n k,
    dashboard today w
      = (Ok [("appointments_today", JInt a); ("patients_total", JInt n);
             ("lab_pending", JInt k); ("alerts", JList [])], w) /\
    dashboard today w'
      = (Ok [("appointments_today", JInt a); ("patients_total", JInt n);
             ("lab_pending", JInt (if too_large t' then k else k - 1)); ("alerts", JList [])], w').
Proof.
  intros Hdb Hoid Hcoll Hpre Hid Hstatus url t' w'.
  destruct w as [dbw inc]. simpl in Hdb. subst dbw.
  assert (Hw' : w' = if too_large t' then mk_world (Some st) inc
                     else mk_world (Some (set_coll st "labtest" (pre ++ t' :: post)%list)) inc).
  { unfold w', upload_result, bind, check_db, py_ObjectId, lift, update_one, ret; cbn beta iota.
    rewrite (str_oid_valid _ _ Hoid). cbn -[update_docs too_large].
    rewrite update_docs_id, Hcoll. cbn -[update_first too_large].
    rewrite (update_first_app _ _ pre post t t'); auto using matches_oid.
    destruct (too_large t'); reflexivity. }
  rewrite Hw'. destruct (too_large t').
  { rewrite !dashboard_eq. do 3 eexists. split; reflexivity. }
  rewrite !dashboard_eq.
  assert (Ht : matches [("status", JStr "ordered")] t = true).
  { unfold matches. simpl. rewrite Hstatus. reflexivity. }
  assert (Ht' : matches [("status", JStr "ordered")] t' = false).
  { unfold matches. cbn -[dget]. unfold t'.
    rewrite dget_dset_neq by discriminate. rewrite dget_dset_eq. reflexivity. }
  do 3 eexists. split; [reflexivity|].
  rewrite !set_coll_same. cbn -[filter length]. rewrite Hcoll, !filter_app. cbn -[matches].
  rewrite Ht, Ht'. rewrite !length_app. cbn [length].
  repeat f_equal. lia.
Qed.

(** X6.  A successful signup adds one to the dashboard's [patients_total] for
    role [patient] and leaves it otherwise; the other counts do not move. *)
Theorem signup_counts_patient today ctx_hash now p st inc r w' :
  signup ctx_hash now p (mk_world (Some st) inc) = (Ok r, w') ->
  exists a n k,
    fst (dashboard today (mk_world (Some st) inc))
      = Ok [("appointments_today", JInt a); ("patients_total", JInt n);
            ("lab_pending", JInt k); ("alerts", JList [])] /\
    fst (dashboard today w')
      = Ok [("appointments_today", JInt a);
            ("patients_total", JInt (if String.eqb (role p) "patient" then n + 1 else n));
            ("lab_pending", JInt k); ("alerts", JList [])].
Proof.
  intros Hs.
  destruct (signup_success ctx_hash now p st inc r w' Hs)
    as [_ [_ [h [st' [_ [Hdb' [_ [Hpat [_ Hother]]]]]]]]].
  destruct w' as [dbw' inc']. simpl in Hdb'. subst dbw'.
  rewrite !dashboard_eq. do 3 eexists. split; [reflexivity|]. simpl fst.
  rewrite Hpat, !Hother by discriminate.
  destruct (String.eqb (role p) "patient"); rewrite ?app_nil_r, ?length_app; cbn [length];
    [repeat f_equal; lia|reflexivity].
Qed.

(** X7.  The dashboard's [appointments_today] is the number of appointments
    [today_appointments] lists for the same day. *)
Theorem dashboard_counts_todays_appointments today w d items :
  fst (dashboard today w) = Ok d ->
  fst (today_appointments today w) = Ok items ->
  dget "appointments_today" d = Some (JInt (Z.of_nat (length items))).
Proof.
  destruct w as [[st|] inc]; [|intros H; discriminate H].
  rewrite dashboard_eq. simpl fst. intros Hd. injection Hd as <-.
  unfold today_appointments, check_db, find, bind, lift, ret. cbn beta iota zeta delta [db fst].
  intros Hi. apply serialize_ids_length in Hi. rewrite Hi. reflexivity.
Qed.

(** X8.  A record added by [add_record] appears, and is the only change, in the
    patient's [get_records] listing (up to the order of the sort), with the
    id [add_record] returned, as a string, and its creation time to the
    millisecond; a record over 16 MiB is refused with a write error and the
    listing does not change. *)
Theorem add_record_listed cmp now pid notes w st :
  db w = Some st ->
  has_ids st "record" ->
  let o := oid_of_counter (oid_inc w) in
  let nd := [("_id", JOid o); ("patient_id", JStr pid); ("notes", JStr notes);
             ("created_at", JDate now)] in
  let w' := snd (add_record now pid notes w) in
  exists old,
    get_records cmp pid w = (Ok old, w) /\
    (too_large nd = true ->
       fst (add_record now pid notes w) = Err WriteError /\
       get_records cmp pid w' = (Ok old, w')) /\
    (too_large nd = false ->
       fst (add_record now pid notes w) = Ok [("id", JStr (oid_hex o))] /\
       exists new, get_records cmp pid w' = (Ok new, w') /\
       Permutation new ([("_id", JStr (oid_hex o)); ("patient_id", JStr pid);
                         ("notes", JStr notes); ("created_at", JDate (now / 1000 * 1000))]
                        :: old)).
Proof.
  intros Hdb Hids o nd w'.
  destruct w as [dbw inc]. simpl in Hdb. subst dbw. simpl in o.
  destruct (sorted_listing cmp "record" "created_at" pid st inc Hids) as [old [Hold Pold]].
  assert (Hg : forall i, get_records cmp pid (mk_world (Some st) i)
                         = (fst (get_records cmp pid (mk_world (Some st) inc)), mk_world (Some st) i))
    by (intros; reflexivity).
  exists old. split; [exact Hold|]. split.
  - intros Hbig.
    assert (Hadd : add_record now pid notes (mk_world (Some st) inc)
                   = (Err WriteError, mk_world (Some st) (N.succ inc))).
    { unfold add_record, check_db, insert_one, bind, ret. cbn -[too_large oid_of_counter].
      match goal with |- context [too_large ?d] =>
        replace (too_large d) with true by (symmetry; exact Hbig) end.
      reflexivity. }
    unfold w'. rewrite Hadd. split; [reflexivity|]. cbn [snd].
    rewrite Hg. change (get_records cmp pid (mk_world (Some st) inc)) with
      ((check_db ;; items <- find "record" [("patient_id", JStr pid)] ;;
        lift (serialize_ids (sort_desc cmp "created_at" items))) (mk_world (Some st) inc)).
    rewrite Hold. reflexivity.
  - intros Hbig.
    set (st' := set_coll st "record" (colls st "record" ++ [stored_doc nd])%list).
    assert (Hadd : add_record now pid notes (mk_world (Some st) inc)
                   = (Ok [("id", JStr (oid_hex o))], mk_world (Some st') (N.succ inc))).
    { unfold add_record, check_db, insert_one, bind, ret. cbn -[too_large oid_of_counter].
      match goal with |- context [too_large ?d] =>
        replace (too_large d) with false by (symmetry; exact Hbig) end.
      reflexivity. }
    unfold w'. rewrite Hadd. split; [reflexivity|]. cbn [snd].
    assert (Hids' : has_ids st' "record").
    { intros d Hd. unfold st' in Hd. rewrite set_coll_same, String.eqb_refl in Hd.
      apply in_app_or in Hd as [Hd|[<-|[]]]; [apply Hids; exact Hd|cbn; discriminate]. }
    destruct (sorted_listing cmp "record" "created_at" pid st' (N.succ inc) Hids')
      as [new [Hnew Pnew]].
    exists new. split; [exact Hnew|].
    eapply perm_trans; [exact Pnew|].
    unfold st'. rewrite set_coll_same, String.eqb_refl, filter_app.
    assert (Hm : matches [("patient_id", JStr pid)] (stored_doc nd) = true).
    { unfold matches, nd. simpl. unfold field_matches. simpl. rewrite string_eqb_refl'.
      reflexivity. }
    cbn [filter]. rewrite Hm, map_app. cbn [map].
    eapply perm_trans; [apply Permutation_sym, Permutation_cons_append|].
    apply perm_skip. apply Permutation_sym. exact Pold.
Qed.

(** X9.  The patient-keyed listings [get_records], [list_prescriptions] and
    [lab_tests] write nothing and return, up to the order of their sort,
    exactly the patient's documents with their ids as strings. *)
Theorem patient_listings_exact cmp pid w st :
  db w = Some st ->
  (has_ids st "record" ->
     exists l, get_records cmp pid w = (Ok l, w) /\
       Permutation l (map serialize_id (filter (matches [("patient_id", JStr pid)])
                                               (colls st "record")))) /\
  (has_ids st "prescription" ->
     exists l, list_prescriptions cmp pid w = (Ok l, w) /\
       Permutation l (map serialize_id (filter (matches [("patient_id", JStr pid)])
                                               (colls st "prescription")))) /\
  (has_ids st "labtest" ->
     exists l, lab_tests cmp pid w = (Ok l, w) /\
       Permutation l (map serialize_id (filter (matches [("patient_id", JStr pid)])
                                               (colls st "labtest")))).
Proof.
  intros Hdb. destruct w as [dbw inc]. simpl in Hdb. subst dbw.
  split; [|split]; intros H; apply sorted_listing; exact H.
Qed.

(** X10.  A doctor's signup adds its Doctor stub, and only it, at the end of the
    [list_doctors] listing, with the stub's id and the new user's id as
    strings and a null specialization; other roles leave the listing as it
    was. *)
Theorem signup_doctor_listed ctx_hash now p st inc r w' :
  signup ctx_hash now p (mk_world (Some st) inc) = (Ok r, w') ->
  has_ids st "doctor" ->
  exists old new,
    list_doctors (mk_world (Some st) inc) = (Ok old, mk_world (Some st) inc) /\
    list_doctors w' = (Ok new, w') /\
    new = (old ++ if String.eqb (role p) "doctor"
                  then [[("_id", JStr (oid_hex (oid_of_counter (N.succ inc))));
                         ("user_id", JStr (oid_hex (oid_of_counter inc)));
                         ("specialization", JNull)]]
                  else [])%list.
Proof.
  intros Hs Hids.
  destruct (signup_success ctx_hash now p st inc r w' Hs)
    as [_ [_ [h [st' [_ [Hdb' [_ [_ [Hdoc _]]]]]]]]].
  destruct w' as [dbw' inc']. simpl in Hdb'. subst dbw'.
  assert (Hids' : has_ids st' "doctor").
  { intros d Hd. rewrite Hdoc in Hd. apply in_app_or in Hd as [Hd|Hd]; [apply Hids; exact Hd|].
    destruct (String.eqb (role p) "doctor"); [destruct Hd as [<-|[]]; discriminate|destruct Hd]. }
  unfold list_doctors, check_db, find, bind, lift, ret. cbn beta iota zeta delta [db].
  rewrite !filter_matches_nil.
  rewrite (serialize_ids_ok (colls st "doctor") Hids), (serialize_ids_ok (colls st' "doctor") Hids').
  do 2 eexists. split; [reflexivity|]. split; [reflexivity|].
  rewrite Hdoc, map_app. destruct (String.eqb (role p) "doctor"); reflexivity.
Qed.















Lemma serialize_ids_missing (l : list dict) :
  (exists d, In d l /\ dget "_id" d = None) -> serialize_ids l = Err KeyError.
Proof.
  induction l as [|d ds IH]; intros [x [Hx Hn]]; [destruct Hx|].
  cbn [serialize_ids]. destruct (dget "_id" d) as [v|] eqn:E; [|reflexivity].
  destruct Hx as [<-|Hx]; [congruence|].
  rewrite IH; [reflexivity|]. exists x. split; assumption.
Qed.

Lemma unsorted_listing (c : string) (w : World) (st : Store) :
  db w = Some st ->
  (has_ids st c ->
     (check_db ;; items <- find c [] ;; lift (serialize_ids items)) w
       = (Ok (map serialize_id (colls st c)), w)) /\
  ((exists d, In d (colls st c) /\ dget "_id" d = None) ->
     (check_db ;; items <- find c [] ;; lift (serialize_ids items)) w = (Err KeyError, w)).
Proof.
  destruct w as [dbw inc]. simpl. intros ->.
  unfold bind, check_db, find, lift. cbn -[serialize_ids filter].
  rewrite filter_matches_nil. split.
  - intros H. rewrite serialize_ids_ok; [reflexivity|exact H].
  - intros H. rewrite serialize_ids_missing; [reflexivity|exact H].
Qed.

(** X11.  The unfiltered listings [list_doctors], [medicines] and [list_admissions]
    return every document of their collection in stored order, each with its
    [_id] turned into a string and nothing else changed; a single document
    without an [_id] makes the whole request fail with [KeyError].  None of
    them changes the store. *)
Theorem unsorted_listings_exact (w : World) (st : Store) :
  db w = Some st ->
  (has_ids st "doctor" -> list_doctors w = (Ok (map serialize_id (colls st "doctor")), w)) /\
  ((exists d, In d (colls st "doctor") /\ dget "_id" d = None) ->
     list_doctors w = (Err KeyError, w)) /\
  (has_ids st "medicine" -> medicines w = (Ok (map serialize_id (colls st "medicine")), w)) /\
  ((exists d, In d (colls st "medicine") /\ dget "_id" d = None) ->
     medicines w = (Err KeyError, w)) /\
  (has_ids st "admission" ->
     list_admissions w = (Ok (map serialize_id (colls st "admission")), w)) /\
  ((exists d, In d (colls st "admission") /\ dget "_id" d = None) ->
     list_admissions w = (Err KeyError, w)).
Proof.
  intros Hdb.
  destruct (unsorted_listing "doctor" w st Hdb) as [D1 D2].
  destruct (unsorted_listing "medicine" w st Hdb) as [M1 M2].
  destruct (unsorted_listing "admission" w st Hdb) as [A1 A2].
  repeat split; assumption.
Qed.

End Driver.

(** ** Sizes of the oversized examples *)

Lemma dbl_length (n : nat) (s : string) :
  Z.of_nat (String.length (dbl n s)) = 2 ^ Z.of_nat n * Z.of_nat (String.length s).
Proof.
  revert s. induction n as [|n IH]; intros s; cbn [dbl].
  - lia.
  - rewrite IH, string_app_length, Nat2Z.inj_add, Nat2Z.inj_succ, Z.pow_succ_r by lia. lia.
Qed.

Lemma big_url_length : str_len ("/files/" ++ big_name) = 16777223.
Proof.
  unfold str_len. rewrite string_app_length, Nat2Z.inj_add.
  unfold big_name. rewrite dbl_length.
  change (String.length "/files/") with 7%nat. change (String.length "a") with 1%nat.
  reflexivity.
Qed.

(** ** Counterexamples *)

(** C1: with the database not configured, a valid token for an existing
    user is answered 500, not 401. *)
Lemma get_current_user_without_database :
  fst (get_current_user demo_short_oid demo_key demo_hmac 1000000 (Some demo_token)
         (mk_world None 0))
    = Err (HTTPException 500 "Database not configured").
Proof. vm_compute. reflexivity. Qed.


(** C7: an upload whose file name makes the completed test exceed 16 MiB is
    refused with a write error; the test stays [ordered]. *)
Lemma upload_result_oversized :
  upload_result demo_short_oid "000000000000000000000001" (Some big_name) demo_world
  = (Err WriteError, demo_world).
Proof.
  rewrite (upload_result_ordered demo_short_oid "000000000000000000000001" (Some big_name)
             demo_world demo_store (oid_of_counter 1) [] demo_lab []
             eq_refl ltac:(vm_compute; reflexivity) eq_refl eq_refl eq_refl).
  cbv beta iota.
  assert (Hbig : too_large (dset "result_pdf_url" (JStr ("/files/" ++ big_name))
                              (dset "status" (JStr "completed") demo_lab)) = true).
  { unfold too_large.
    rewrite (bson_size_dset_any "result_pdf_url" JNull (JStr ("/files/" ++ big_name)))
      by (vm_compute; reflexivity).
    assert (H0 : bson_size (JObj (dset "status" (JStr "completed") demo_lab)) = 133)
      by (vm_compute; reflexivity).
    rewrite H0. cbn [bson_size]. rewrite big_url_length. reflexivity. }
  rewrite Hbig. reflexivity.
Qed.

(** ** Witnesses *)


Lemma upload_result_completes_test_witness :
  protected demo_short_oid demo_key demo_hmac 1000000 (Some demo_token)
    (fun _ => upload_result demo_short_oid "000000000000000000000001" (Some "cbc.pdf"))
    demo_world
  = (Ok [("message", JStr "Result uploaded")],
     mk_world (Some (set_coll demo_store "labtest"
       [dset "result_pdf_url" (JStr "/files/cbc.pdf") (dset "status" (JStr "completed") demo_lab)]))
       3).
Proof.
  destruct (upload_result_completes_test demo_short_oid demo_key demo_hmac 1000000
              (Some demo_token) "000000000000000000000001" (Some "cbc.pdf") demo_world demo_store
              (oid_of_counter 1) [] demo_lab []
              ltac:(vm_compute; reflexivity) eq_refl ltac:(vm_compute; reflexivity)
              eq_refl eq_refl eq_refl eq_refl) as [_ [_ [_ H]]].
  rewrite H. vm_compute. reflexivity.
Defined.

Lemma signup_links_profile_witness :
  exists st st' o',
    db w0 = Some st /\ db (snd (signup demo_hash 5 alice w0)) = Some st' /\
    colls st' "patient"
      = (colls st "patient" ++
         [("_id", JOid o') :: [("user_id", JStr "000000000000000000000000");
                               ("medical_record_number",
                                 JStr ("MRN-" ++ py_upper (last6 "000000000000000000000000")))]])%list.
Proof.
  destruct (signup_links_profile demo_hash 5 alice w0
              [("id", JStr "000000000000000000000000"); ("message", JStr "Signup successful")]
              (snd (signup demo_hash 5 alice w0)) ltac:(vm_compute; reflexivity))
    as [st [st' [U1 [o [ud [Hdb [Hdb' [Hr [_ [_ [_ [Hp _]]]]]]]]]]]].
  injection Hr as HU. subst U1.
  destruct (Hp eq_refl) as [o' Ho']. exists st, st', o'. auto.
Defined.


Lemma access_token_expiry_witness :
  exists tok,
    create_access_token demo_key demo_hmac 500000
      [("sub", JStr (oid_hex uid0)); ("role", JStr "lab")] (Some (minutes 1)) = Ok tok /\
    jwt_decode demo_hmac tok demo_key [ALGORITHM] 30000000
      = Ok [("sub", JStr (oid_hex uid0)); ("role", JStr "lab"); ("exp", JInt 60)].
Proof.
  destruct (proj2 (access_token_expiry demo_key demo_hmac 500000 (oid_hex uid0) (JStr "lab")
                     (Some (minutes 1)) 30000000 ltac:(discriminate)) eq_refl)
    as [tok [Htok [Hdec _]]].
  exists tok. split; [exact Htok|]. rewrite Hdec. vm_compute. reflexivity.
Defined.

Lemma signup_then_login_witness :
  exists tok,
    login demo_key demo_hmac demo_verify 0 (mk_form "alice@x.com" "pw")
      (snd (signup demo_hash 5 alice w0))
    = (Ok tok, snd (signup demo_hash 5 alice w0)) /\
    exists claims, jwt_decode demo_hmac tok demo_key [ALGORITHM] 1000000 = Ok claims /\
      dget "sub" claims = Some (JStr (oid_hex (oid_of_counter 0))) /\
      dget "role" claims = Some (JStr "patient").
Proof.
  assert (H1 : signup demo_hash 5 alice (mk_world (Some empty_store) 0)
    = (Ok [("id", JStr "000000000000000000000000"); ("message", JStr "Signup successful")],
       snd (signup demo_hash 5 alice w0))) by (vm_compute; reflexivity).
  assert (HM : 1000000 + 1000000 <= 0 + minutes ACCESS_TOKEN_EXPIRE_MINUTES)
    by (vm_compute; discriminate).
  destruct (signup_then_login demo_key demo_hmac demo_hash demo_verify 5 0 alice
              empty_store 0 _ _ H1 ltac:(intros h Hh; injection Hh as <-; reflexivity))
    as [_ [tok [_ [Hlog Hdec]]]].
  exists tok. split; [exact Hlog|]. exact (Hdec 1000000 HM).
Defined.

Lemma login_then_authenticate_witness :
  exists tok,
    login demo_key demo_hmac demo_verify 0 (mk_form "lab@x.com" "pw") demo_world
      = (Ok tok, demo_world) /\
    get_current_user demo_short_oid demo_key demo_hmac 1000000 (Some tok) demo_world
      = (Ok (dset "_id" (JStr (oid_hex uid0)) demo_user), demo_world).
Proof.
  assert (HM : 1000000 + 1000000 <= 0 + minutes ACCESS_TOKEN_EXPIRE_MINUTES)
    by (vm_compute; discriminate).
  exact (proj2 (login_then_authenticate demo_short_oid demo_key demo_hmac demo_verify 0 1000000
                  (mk_form "lab@x.com" "pw") demo_world demo_store demo_user uid0
                  eq_refl ltac:(vm_compute; reflexivity) ltac:(vm_compute; reflexivity) eq_refl
                  ltac:(vm_compute; reflexivity) ltac:(vm_compute; reflexivity) HM) eq_refl).
Defined.

Lemma upload_result_clears_pending_witness :
  exists a n k,
    dashboard "2026-10-16" clinic_world
      = (Ok [("appointments_today", JInt a); ("patients_total", JInt n);
             ("lab_pending", JInt k); ("alerts", JList [])], clinic_world) /\
    dashboard "2026-10-16"
      (snd (upload_result demo_short_oid "000000000000000000000001" (Some "cbc.pdf") clinic_world))
      = (Ok [("appointments_today", JInt a); ("patients_total", JInt n);
             ("lab_pending", JInt (k - 1)); ("alerts", JList [])],
         snd (upload_result demo_short_oid "000000000000000000000001" (Some "cbc.pdf")
                clinic_world)).
Proof.
  destruct (upload_result_clears_pending demo_short_oid "2026-10-16" "000000000000000000000001"
              (Some "cbc.pdf") clinic_world clinic_store (oid_of_counter 1) [] demo_lab []
              eq_refl ltac:(vm_compute; reflexivity) ltac:(vm_compute; reflexivity)
              eq_refl ltac:(vm_compute; reflexivity) ltac:(vm_compute; reflexivity))
    as [a [n [k [H1 H2]]]].
  exists a, n, k. split; [exact H1|].
  match type of H2 with context [too_large ?d] =>
    replace (too_large d) with false in H2 by (vm_compute; reflexivity) end.
  exact H2.
Defined.

Lemma signup_counts_patient_witness :
  exists a n k,
    fst (dashboard "2026-10-16" w0)
      = Ok [("appointments_today", JInt a); ("patients_total", JInt n);
            ("lab_pending", JInt k); ("alerts", JList [])] /\
    fst (dashboard "2026-10-16" (snd (signup demo_hash 5 alice w0)))
      = Ok [("appointments_today", JInt a); ("patients_total", JInt (n + 1));
            ("lab_pending", JInt k); ("alerts", JList [])].
Proof.
  assert (H1 : signup demo_hash 5 alice (mk_world (Some empty_store) 0)
    = (Ok [("id", JStr "000000000000000000000000"); ("message", JStr "Signup successful")],
       snd (signup demo_hash 5 alice w0))) by (vm_compute; reflexivity).
  exact (signup_counts_patient "2026-10-16" demo_hash 5 alice empty_store 0 _ _ H1).
Defined.

Lemma dashboard_counts_todays_appointments_witness :
  fst (dashboard "2026-10-16" clinic_world)
    = Ok [("appointments_today", JInt 1); ("patients_total", JInt 0);
          ("lab_pending", JInt 1); ("alerts", JList [])] /\
  fst (today_appointments "2026-10-16" clinic_world)
    = Ok [[("_id", JStr "000000000000000000000004"); ("patient_id", JStr "p1");
           ("doctor_id", JStr "d1"); ("date", JStr "2026-10-16"); ("status", JStr "scheduled")]] /\
  dget "appointments_today"
    [("appointments_today", JInt 1); ("patients_total", JInt 0);
     ("lab_pending", JInt 1); ("alerts", JList [])]
    = Some (JInt (Z.of_nat (length
        [[("_id", JStr "000000000000000000000004"); ("patient_id", JStr "p1");
          ("doctor_id", JStr "d1"); ("date", JStr "2026-10-16"); ("status", JStr "scheduled")]]))).
Proof.
  assert (H1 : fst (dashboard "2026-10-16" clinic_world)
    = Ok [("appointments_today", JInt 1); ("patients_total", JInt 0);
          ("lab_pending", JInt 1); ("alerts", JList [])]) by (vm_compute; reflexivity).
  assert (H2 : fst (today_appointments "2026-10-16" clinic_world)
    = Ok [[("_id", JStr "000000000000000000000004"); ("patient_id", JStr "p1");
           ("doctor_id", JStr "d1"); ("date", JStr "2026-10-16"); ("status", JStr "scheduled")]])
    by (vm_compute; reflexivity).
  split; [exact H1|]. split; [exact H2|].
  exact (dashboard_counts_todays_appointments "2026-10-16" clinic_world _ _ H1 H2).
Defined.

Lemma add_record_listed_witness :
  exists old new,
    get_records demo_cmp "p1" clinic_world = (Ok old, clinic_world) /\
    fst (add_record 1500 "p1" "cough" clinic_world)
      = Ok [("id", JStr (oid_hex (oid_of_counter 6)))] /\
    get_records demo_cmp "p1" (snd (add_record 1500 "p1" "cough" clinic_world))
      = (Ok new, snd (add_record 1500 "p1" "cough" clinic_world)) /\
    Permutation new ([("_id", JStr (oid_hex (oid_of_counter 6))); ("patient_id", JStr "p1");
                      ("notes", JStr "cough"); ("created_at", JDate 1000)] :: old).
Proof.
  assert (Hids : has_ids clinic_store "record").
  { intros d Hd. vm_compute in Hd. destruct Hd as [<-|[]]. discriminate. }
  destruct (add_record_listed demo_cmp 1500 "p1" "cough" clinic_world clinic_store eq_refl Hids)
    as [old [Hold [_ Hsmall]]].
  destruct (Hsmall ltac:(vm_compute; reflexivity)) as [Hfst [new [Hnew Hperm]]].
  exists old, new. split; [exact Hold|]. split; [exact Hfst|]. split; [exact Hnew|].
  exact Hperm.
Defined.

Lemma patient_listings_exact_witness :
  (has_ids clinic_store "record" ->
     exists l, get_records demo_cmp "p1" clinic_world = (Ok l, clinic_world) /\
       Permutation l (map serialize_id (filter (matches [("patient_id", JStr "p1")])
                                               (colls clinic_store "record")))) /\
  (has_ids clinic_store "prescription" ->
     exists l, list_prescriptions demo_cmp "p1" clinic_world = (Ok l, clinic_world) /\
       Permutation l (map serialize_id (filter (matches [("patient_id", JStr "p1")])
                                               (colls clinic_store "prescription")))) /\
  (has_ids clinic_store "labtest" ->
     exists l, lab_tests demo_cmp "p1" clinic_world = (Ok l, clinic_world) /\
       Permutation l (map serialize_id (filter (matches [("patient_id", JStr "p1")])
                                               (colls clinic_store "labtest")))).
Proof. exact (patient_listings_exact demo_cmp "p1" clinic_world clinic_store eq_refl). Defined.

Lemma signup_doctor_listed_witness :
  exists old new,
    list_doctors w0 = (Ok old, w0) /\
    list_doctors (snd (signup demo_hash 5 bob w0)) = (Ok new, snd (signup demo_hash 5 bob w0)) /\
    new = (old ++ [[("_id", JStr (oid_hex (oid_of_counter 1)));
                    ("user_id", JStr (oid_hex (oid_of_counter 0)));
                    ("specialization", JNull)]])%list.
Proof.
  assert (H1 : signup demo_hash 5 bob (mk_world (Some empty_store) 0)
    = (Ok [("id", JStr "000000000000000000000000"); ("message", JStr "Signup successful")],
       snd (signup demo_hash 5 bob w0))) by (vm_compute; reflexivity).
  exact (signup_doctor_listed demo_hash 5 bob empty_store 0 _ _ H1 (fun d H => False_ind _ H)).
Defined.


Lemma unsorted_listings_exact_witness :
  medicines clinic_world
    = (Ok [[("_id", JStr "000000000000000000000002"); ("name", JStr "Paracetamol");
            ("stock", JInt 10); ("price", JFloat 2)]], clinic_world) /\
  list_admissions (mk_world (Some (set_coll clinic_store "admission" [[("bed", JStr "B1")]])) 6)
    = (Err KeyError, mk_world (Some (set_coll clinic_store "admission" [[("bed", JStr "B1")]])) 6).
Proof.
  split.
  - refine (proj1 (proj2 (proj2 (unsorted_listings_exact clinic_world clinic_store eq_refl))) _).
    intros d Hd. vm_compute in Hd. destruct Hd as [<-|[]]. discriminate.
  - refine (proj2 (proj2 (proj2 (proj2 (proj2
              (unsorted_listings_exact (mk_world (Some (set_coll clinic_store "admission" [[("bed", JStr "B1")]])) 6) (set_coll clinic_store "admission" [[("bed", JStr "B1")]])
                 eq_refl))))) _).
    exists [("bed", JStr "B1")]. split; [left; reflexivity|reflexivity].
Defined.
